(** * planatrip: the request dispatcher of the travel-planning proxy

    A shallow embedding of the serverless function [handler] of
    [api/proxy.js], in its two versions:

    - [Superseded.handler]: src/api/proxy.js (six request kinds);
    - [Superset.handler]: src/unnamed/part_000 (adds [generateImage] and the
      [foodSuggestion] field).

    The handler is JavaScript: its values are JSON values, every property
    read may throw a [TypeError], and it talks to three collaborators (the
    response object [res], the upstream service behind [fetch], the
    console).  The embedding keeps all of that: values are [value],
    abrupt completions are [Throw], and the collaborators are a [World]
    threaded through the monad [M]. *)

From Stdlib Require Import String Ascii List Bool ZArith QArith.
From Stdlib Require Import DecimalString.
Import ListNotations.

Open Scope list_scope.
Open Scope string_scope.
Set Warnings "-register-all".

(** ** JavaScript values *)

(** The values the handler manipulates all come from JSON documents (the
    request body, the upstream response) or from literals of the source.
    A JSON number is kept as the rational it denotes; rounding to binary64
    is below this model.  An object is the list of its own properties in
    insertion order. *)
Inductive value : Type :=
| VUndefined
| VNull
| VBool (b : bool)
| VNum (q : Q)
| VStr (s : string)
| VArr (items : list value)
| VObj (fields : list (string * value)).

(** Error objects: only the constructor and the [message] are observed. *)
Inductive JsError : Type :=
| TypeError (msg : string)
| SyntaxError (msg : string)
| Error (msg : string).

Definition message (e : JsError) : string :=
  match e with
  | TypeError m | SyntaxError m | Error m => m
  end.

(** The outcome of evaluating an expression. *)
Inductive Completion (A : Type) : Type :=
| Normal (a : A)
| Throw (e : JsError).
Arguments Normal {A} a.
Arguments Throw {A} e.

Definition cbind {A B} (c : Completion A) (k : A -> Completion B) : Completion B :=
  match c with
  | Normal a => k a
  | Throw e => Throw e
  end.

Notation "'let*' x ':=' c 'in' k" := (cbind c (fun x => k))
  (at level 10, x name, c at level 100, k at level 200).

(** What the program takes from the JavaScript engine and does not define
    itself: the printing and reading of numbers, and [JSON.parse]. *)
Class Engine : Type := {
  Number_toString : Q -> string;
  String_toNumber : string -> option Q;
  JSON_parse : string -> Completion value
}.

Definition dq : string := String (ascii_of_nat 34) EmptyString.
Definition nl : string := String (ascii_of_nat 10) EmptyString.

Fixpoint lookup (k : string) (fields : list (string * value)) : value :=
  match fields with
  | [] => VUndefined
  | (k', v) :: rest => if String.eqb k k' then v else lookup k rest
  end.

Fixpoint hasOwn (k : string) (fields : list (string * value)) : bool :=
  match fields with
  | [] => false
  | (k', _) :: rest => String.eqb k k' || hasOwn k rest
  end.

Definition nullish (v : value) : bool :=
  match v with
  | VUndefined | VNull => true
  | _ => false
  end.

(** [ToBoolean]: the test of [!x], [x || y], [x && y] and [x ? y : z]. *)
Definition ToBoolean (v : value) : bool :=
  match v with
  | VUndefined | VNull => false
  | VBool b => b
  | VNum q => negb (Qeq_bool q 0)
  | VStr s => negb (String.eqb s EmptyString)
  | VArr _ | VObj _ => true
  end.

(** The key of an array element: a canonical decimal numeral. *)
Definition index_key (n : nat) : string := NilZero.string_of_uint (Nat.to_uint n).

Definition array_index (k : string) : option nat :=
  match NilEmpty.uint_of_string k with
  | Some u =>
      let n := Nat.of_uint u in
      if String.eqb (index_key n) k then Some n else None
  | None => None
  end.

Definition num_of_nat (n : nat) : value := VNum (inject_Z (Z.of_nat n)).

(** Wording of Node.js for a property read on [undefined] or [null]. *)
Definition cannot_read (v : value) (k : string) : JsError :=
  TypeError ("Cannot read properties of "
             ++ (match v with VNull => "null" | _ => "undefined" end)
             ++ " (reading '" ++ k ++ "')").

(** [v.k] and [v[k]].  The names the handler reads ([data], [candidates],
    [text], [length], ...) are on no built-in prototype, so a read that
    finds no own property gives [undefined]. *)
Definition GetV (v : value) (k : string) : Completion value :=
  match v with
  | VUndefined | VNull => Throw (cannot_read v k)
  | VBool _ | VNum _ => Normal VUndefined
  | VStr s =>
      if String.eqb k "length" then Normal (num_of_nat (String.length s))
      else match array_index k with
           | Some i => match String.get i s with
                       | Some c => Normal (VStr (String c EmptyString))
                       | None => Normal VUndefined
                       end
           | None => Normal VUndefined
           end
  | VArr items =>
      if String.eqb k "length" then Normal (num_of_nat (List.length items))
      else match array_index k with
           | Some i => Normal (nth i items VUndefined)
           | None => Normal VUndefined
           end
  | VObj fields => Normal (lookup k fields)
  end.

(** [v?.k]: [undefined] when [v] is [undefined] or [null]. *)
Definition GetOpt (v : value) (k : string) : Completion value :=
  if nullish v then Normal VUndefined else GetV v k.

Section WithEngine.
Context {E : Engine}.

(** [ToString], as applied by template literals and by [new Error(x)].  An
    object from JSON prints through [Object.prototype.toString] unless an
    own (hence not callable) [toString] property hides it; an array prints
    through [join]. *)
Fixpoint ToString (v : value) : Completion string :=
  match v with
  | VUndefined => Normal "undefined"
  | VNull => Normal "null"
  | VBool true => Normal "true"
  | VBool false => Normal "false"
  | VNum q => Normal (Number_toString q)
  | VStr s => Normal s
  | VArr items =>
      (fix join (l : list value) : Completion string :=
         match l with
         | [] => Normal EmptyString
         | x :: rest =>
             let* sx := (match x with
                         | VUndefined | VNull => Normal EmptyString
                         | _ => ToString x
                         end) in
             match rest with
             | [] => Normal sx
             | _ => let* sr := join rest in Normal (sx ++ "," ++ sr)
             end
         end) items
  | VObj fields =>
      if hasOwn "toString" fields
      then Throw (TypeError "Cannot convert object to primitive value")
      else Normal "[object Object]"
  end.

(** [ToNumber]; [None] is [NaN]. *)
Definition ToNumber (v : value) : Completion (option Q) :=
  match v with
  | VUndefined => Normal None
  | VNull => Normal (Some 0%Q)
  | VBool true => Normal (Some 1%Q)
  | VBool false => Normal (Some 0%Q)
  | VNum q => Normal (Some q)
  | VStr s => Normal (String_toNumber s)
  | VArr _ | VObj _ => let* s := ToString v in Normal (String_toNumber s)
  end.

(** [v > 0]. *)
Definition gt_zero (v : value) : Completion bool :=
  let* n := ToNumber v in
  match n with
  | Some q => Normal (negb (Qle_bool q 0))
  | None => Normal false
  end.

(** A template literal: literal chunks and substitutions, evaluated from
    left to right, each substitution converted with [ToString]. *)
Inductive piece : Type :=
| Lit (s : string)
| Sub (e : Completion value).

Fixpoint template (ps : list piece) : Completion string :=
  match ps with
  | [] => Normal EmptyString
  | Lit s :: rest => let* r := template rest in Normal (s ++ r)
  | Sub e :: rest =>
      let* v := e in
      let* s := ToString v in
      let* r := template rest in
      Normal (s ++ r)
  end.

(** [a || b] on values. *)
Definition or_else (a : Completion value) (b : value) : Completion value :=
  let* x := a in Normal (if ToBoolean x then x else b).

End WithEngine.

(** ** The collaborators of the handler *)

(** One [res.status(c).json(b)]. *)
Record Response : Type := { status : nat; json : value }.

(** What [fetch] is called with.  [bodyPayload] is the object handed to
    [JSON.stringify]: a tree of strings and numbers, which always prints. *)
Record UpstreamCallSpec : Type := {
  endpointURL : string;
  method : string;
  headers : list (string * string);
  bodyPayload : value
}.

(** What the upstream answers: [ok] is [response.ok], [response_json] the outcome
    of [await response.json()], which rejects when the body is not JSON. *)
Record UpstreamResponse : Type := { ok : bool; response_json : Completion value }.

Inductive FetchOutcome : Type :=
| Rejected (e : JsError)
| Resolved (r : UpstreamResponse).

Definition Upstream : Type := UpstreamCallSpec -> FetchOutcome.

Inductive LogArg : Type :=
| LogText (s : string)
| LogError (e : JsError)
| LogValue (v : value).

(** [statusCode] is what [res.status] last set, [sent] the responses written
    by [res.json], [fetched] the calls made through [fetch], [console] the
    lines of [console.error]. *)
Record World : Type := {
  statusCode : nat;
  sent : list Response;
  fetched : list UpstreamCallSpec;
  console : list (list LogArg)
}.

Definition init : World :=
  {| statusCode := 200; sent := []; fetched := []; console := [] |}.

Definition M (A : Type) : Type := World -> Completion A * World.

Definition ret {A} (a : A) : M A := fun w => (Normal a, w).

Definition bind {A B} (m : M A) (k : A -> M B) : M B :=
  fun w =>
    match m w with
    | (Normal a, w') => k a w'
    | (Throw e, w') => (Throw e, w')
    end.

Definition throw {A} (e : JsError) : M A := fun w => (Throw e, w).

Definition lift {A} (c : Completion A) : M A := fun w => (c, w).

(** [try { m } catch (e) { h e }]: what [m] did before it threw stays done. *)
Definition try_catch {A} (m : M A) (h : JsError -> M A) : M A :=
  fun w =>
    match m w with
    | (Throw e, w') => h e w'
    | r => r
    end.

Notation "x <- m ;; k" := (bind m (fun x => k))
  (at level 61, m at next level, right associativity).
Notation "m ;; k" := (bind m (fun _ => k))
  (at level 61, right associativity).

Definition res_status (c : nat) : M unit :=
  fun w => (Normal tt, {| statusCode := c; sent := sent w;
                          fetched := fetched w; console := console w |}).

Definition res_json (b : value) : M unit :=
  fun w => (Normal tt, {| statusCode := statusCode w;
                          sent := (sent w ++ [{| status := statusCode w; json := b |}])%list;
                          fetched := fetched w; console := console w |}).

Definition console_error (args : list LogArg) : M unit :=
  fun w => (Normal tt, {| statusCode := statusCode w; sent := sent w;
                          fetched := fetched w;
                          console := (console w ++ [args])%list |}).

Definition fetch (up : Upstream) (call : UpstreamCallSpec) : M UpstreamResponse :=
  fun w =>
    let w' := {| statusCode := statusCode w; sent := sent w;
                 fetched := (fetched w ++ [call])%list; console := console w |} in
    match up call with
    | Rejected e => (Throw e, w')
    | Resolved r => (Normal r, w')
    end.

(** The arguments of
    [fetch(apiUrl, { method: 'POST', headers: { 'Content-Type': 'application/json' },
                     body: JSON.stringify(payload) })]. *)
Definition upstream_call (apiUrl : string) (payload : value) : UpstreamCallSpec :=
  {| endpointURL := apiUrl;
     method := "POST";
     headers := [("Content-Type", "application/json")];
     bodyPayload := payload |}.

(** The inbound request: [req.method] and [req.body]. *)
Record Request : Type := { req_method : string; req_body : value }.

Fixpoint without (k : string) (fields : list (string * value)) : list (string * value) :=
  match fields with
  | [] => []
  | (k', v) :: rest =>
      if String.eqb k k' then without k rest else (k', v) :: without k rest
  end.

Fixpoint indexed (i : nat) (items : list value) : list (string * value) :=
  match items with
  | [] => []
  | x :: rest => (index_key i, x) :: indexed (S i) rest
  end.

Fixpoint chars (s : string) : list value :=
  match s with
  | EmptyString => []
  | String c rest => VStr (String c EmptyString) :: chars rest
  end.

(** [const { type, ...body } = req.body]. *)
Definition destructure (b : value) : Completion (value * value) :=
  match b with
  | VUndefined =>
      Throw (TypeError "Cannot destructure property 'type' of 'req.body' as it is undefined.")
  | VNull =>
      Throw (TypeError "Cannot destructure property 'type' of 'req.body' as it is null.")
  | VBool _ | VNum _ => Normal (VUndefined, VObj [])
  | VStr s => Normal (VUndefined, VObj (indexed 0 (chars s)))
  | VArr items => Normal (VUndefined, VObj (indexed 0 items))
  | VObj fields => Normal (lookup "type" fields, VObj (without "type" fields))
  end.

(** [!API_KEY] on [process.env.GEMINI_API_KEY]. *)
Definition key_missing (k : option string) : bool :=
  match k with
  | None => true
  | Some s => String.eqb s EmptyString
  end.

(** The closed enumeration of the specification, and the [type] string of
    each kind. *)
Inductive RequestKind : Type :=
| itinerary | groundedSearch | contextualQa | flights
| packingList | currency | generateImage.

Definition kind_name (k : RequestKind) : string :=
  match k with
  | itinerary => "itinerary"
  | groundedSearch => "groundedSearch"
  | contextualQa => "contextualQa"
  | flights => "flights"
  | packingList => "packingList"
  | currency => "currency"
  | generateImage => "generateImage"
  end.

Definition all_kinds : list RequestKind :=
  [itinerary; groundedSearch; contextualQa; flights; packingList; currency; generateImage].

(** [type] is the string of one of the seven kinds. *)
Definition recognized (type : value) : bool :=
  match type with
  | VStr t => existsb (fun k => String.eqb t (kind_name k)) all_kinds
  | _ => false
  end.

Definition STRING : value := VObj [("type", VStr "STRING")].
Definition NUMBER : value := VObj [("type", VStr "NUMBER")].
Definition strings (l : list string) : value := VArr (map VStr l).

(** [result.candidates[0].content.parts[0].text] *)
Definition candidate_text (result : value) : Completion value :=
  let* candidates := GetV result "candidates" in
  let* c0 := GetV candidates "0" in
  let* content := GetV c0 "content" in
  let* parts := GetV content "parts" in
  let* p0 := GetV parts "0" in
  GetV p0 "text".

(** [result.candidates[0]?.content?.parts[0]?.text]: a [?.] that finds
    [undefined] or [null] ends the whole chain with [undefined]. *)
Definition candidate_text_opt (result : value) : Completion value :=
  let* candidates := GetV result "candidates" in
  let* c0 := GetV candidates "0" in
  if nullish c0 then Normal VUndefined else
  let* content := GetV c0 "content" in
  if nullish content then Normal VUndefined else
  let* parts := GetV content "parts" in
  let* p0 := GetV parts "0" in
  if nullish p0 then Normal VUndefined else
  GetV p0 "text".

(** [v === 'name'] *)
Definition strict_eq (v : value) (name : string) : bool :=
  match v with
  | VStr s => String.eqb s name
  | _ => false
  end.

Definition error_body (m : string) : value := VObj [("error", VStr m)].

(** ** The superseded dispatcher: src/api/proxy.js *)
Module Superseded.
Section WithEngine.
Context {E : Engine}.

Definition API_URL_BASE : string :=
  "https://generativelanguage.googleapis.com/v1beta/models/gemini-2.5-flash-preview-09-2025:generateContent".

(** The prompt of the [itinerary] case (lines 31-62). *)
Definition itinerary_prompt (data : value) : Completion string :=
  template
  [ Lit "
You are an AI travel assistant. Your task is to generate a travel itinerary based on the user's request.
You MUST format your response *strictly* according to the provided JSON schema.
Do not add any text, conversational chat, or markdown outside of the final JSON structure.

User Request:
- Destination: ";
    Sub (GetV data "cities");
    Lit ", ";
    Sub (GetV data "country");
    Lit "
- Staying At (Starting Point): ";
    Sub (or_else (GetV data "staying-at") (VStr "Central location"));
    Lit " 
- Duration: ";
    Sub (GetV data "duration");
    Lit " days
- Travelers: ";
    Sub (GetV data "num-people");
    Lit "
- Budget: ";
    Sub (GetV data "budget");
    Lit "
- Pace: ";
    Sub (GetV data "trip-pace");
    Lit "
- Accommodation: ";
    Sub (GetV data "accommodation-type");
    Lit "
- Interests: ";
    Sub (or_else (GetV data "interests") (VStr "N/A"));
    Lit ("

IMPORTANT INSTRUCTION:
If " ++ dq ++ "Staying At" ++ dq ++ " is specific (not 'Central location'), you MUST assume the user starts their day there. 
Optimise the daily order of activities to minimize travel time from that starting point.

JSON Schema Instructions:
1.  **title**: Generate a concise, catchy title for the trip (e.g., " ++ dq ++ "3-Day Foodie Tour of Rome" ++ dq ++ ").
2.  **summary**: Write a 2-3 sentence summary of the trip.
3.  **budgetTier**: Use the user's requested budget (e.g., " ++ dq);
    Sub (GetV data "budget");
    Lit (dq ++ ").
4.  **numberOfPeople**: Use the user's requested number (e.g., ");
    Sub (GetV data "num-people");
    Lit (").
5.  **costPerHeadUSD**: Estimate a reasonable cost per person in USD (number only).
6.  **bestSeasonToVisit**: Suggest the best season to visit (e.g., " ++ dq ++ "Spring (April-June)" ++ dq ++ ").
7.  **days**: Create an array for each day.
8.  **day object**: Each day *must* have a " ++ dq ++ "day" ++ dq ++ " number, " ++ dq ++ "theme" ++ dq ++ ", " ++ dq ++ "city" ++ dq ++ ", " ++ dq ++ "transportation_tip" ++ dq ++ ", and an " ++ dq ++ "activities" ++ dq ++ " array.
9.  **activity object**: Each activity *must* have a " ++ dq ++ "name" ++ dq ++ ", " ++ dq ++ "type" ++ dq ++ "," ++ dq ++ "details" ++ dq ++ ", " ++ dq ++ "address" ++ dq ++ ", " ++ dq ++ "approxCostUSD" ++ dq ++ ", and " ++ dq ++ "crowdLevel" ++ dq ++ " (Low, Moderate, or High).

IMPORTANT: Your entire response must be ONLY the JSON object, starting with { and ending with }.
") ].

Definition responseSchema : value :=
  VObj
    [ ("type", VStr "OBJECT");
      ("properties", VObj
         [ ("title", STRING);
           ("numberOfPeople", NUMBER);
           ("budgetTier", STRING);
           ("costPerHeadUSD", NUMBER);
           ("summary", STRING);
           ("bestSeasonToVisit", STRING);
           ("days", VObj
              [ ("type", VStr "ARRAY");
                ("items", VObj
                   [ ("type", VStr "OBJECT");
                     ("properties", VObj
                        [ ("day", NUMBER);
                          ("theme", STRING);
                          ("city", STRING);
                          ("transportation_tip", STRING);
                          ("activities", VObj
                             [ ("type", VStr "ARRAY");
                               ("items", VObj
                                  [ ("type", VStr "OBJECT");
                                    ("properties", VObj
                                       [ ("name", STRING);
                                         ("type", STRING);
                                         ("crowdLevel", STRING);
                                         ("approxCostUSD", NUMBER);
                                         ("details", STRING);
                                         ("address", STRING) ]);
                                    ("required",
                                     strings ["name"; "type"; "details"; "approxCostUSD";
                                              "crowdLevel"; "address"]) ]) ]) ]);
                     ("required",
                      strings ["day"; "theme"; "city"; "activities";
                               "transportation_tip"]) ]) ]) ]);
      ("required",
       strings ["title"; "numberOfPeople"; "budgetTier"; "costPerHeadUSD";
                "summary"; "bestSeasonToVisit"; "days"]) ].

(** The [switch (type)] of lines 27-167: [None] is the [default] case, and
    the payload of a recognized case may throw while it is built. *)
Definition build (type body : value) : option (Completion value) :=
  if strict_eq type "itinerary" then
    Some (let* data := GetV body "data" in
          let* prompt := itinerary_prompt data in
          Normal (VObj
          [ ("contents", VArr [VObj [("parts", VArr [VObj [("text", VStr prompt)]])]]);
            ("generationConfig", VObj
               [ ("temperature", VNum (1 # 10));
                 ("responseMimeType", VStr "application/json");
                 ("responseSchema", responseSchema) ]) ]))
  else if strict_eq type "groundedSearch" then
    Some (let* query := GetV body "query" in
          Normal (VObj [ ("contents", VArr [VObj [("parts", VArr [VObj [("text", query)]])]]);
               ("tools", VArr [VObj [("google_search", VObj [])]]) ]))
  else if strict_eq type "contextualQa" then
    Some (let* context := GetV body "context" in
          let* question := GetV body "question" in
          let* qaPrompt := template
        [ Lit ("Regarding the travel activity or location " ++ dq);
          Sub (Normal context);
          Lit (dq ++ ", please provide a concise and helpful answer to the following user question: " ++ dq);
          Sub (Normal question);
          Lit dq ] in
          Normal (VObj [ ("contents", VArr [VObj [("parts", VArr [VObj [("text", VStr qaPrompt)]])]]);
               ("tools", VArr [VObj [("google_search", VObj [])]]) ]))
  else if strict_eq type "flights" then
    Some (let* flightData := GetV body "data" in
          let* flightPrompt := template
        [ Lit "Find the cheapest flight options from ";
          Sub (GetV flightData "flight-origin");
          Lit " to ";
          Sub (GetV flightData "flight-destination");
          Lit ", departing on ";
          Sub (GetV flightData "flight-depart-date");
          Sub (let* back := GetV flightData "flight-return-date" in
               if ToBoolean back
               then let* s := template [ Lit " and returning on ";
                                         Sub (GetV flightData "flight-return-date") ] in
                    Normal (VStr s)
               else Normal (VStr EmptyString));
          Lit " for ";
          Sub (GetV flightData "flight-travelers");
          Lit " traveler(s) in ";
          Sub (GetV flightData "flight-cabin");
          Lit " class. Summarize the best 2-3 options. IMPORTANT: Make sure all airline names are enclosed in asterisks to make them bold, for example **IndiGo** or **SriLankan Airlines**." ] in
          Normal (VObj [ ("contents", VArr [VObj [("parts", VArr [VObj [("text", VStr flightPrompt)]])]]);
               ("tools", VArr [VObj [("google_search", VObj [])]]) ]))
  else if strict_eq type "packingList" then
    Some (let* packData := GetV body "data" in
          let* packPrompt := template
        [ Lit "Generate a detailed packing list for a trip to ";
          Sub (GetV packData "pack-destination");
          Lit " for ";
          Sub (GetV packData "pack-duration");
          Lit " days, during the ";
          Sub (GetV packData "pack-season");
          Lit ". Special activities include: ";
          Sub (GetV packData "pack-activities");
          Lit ". Format the output as a Markdown list." ] in
          Normal (VObj [ ("contents", VArr [VObj [("parts", VArr [VObj [("text", VStr packPrompt)]])]]) ]))
  else if strict_eq type "currency" then
    Some (let* currencyPrompt := template
        [ Lit "What is the current exchange rate for ";
          Sub (GetV body "amount");
          Lit " ";
          Sub (GetV body "from");
          Lit " to ";
          Sub (GetV body "to");
          Lit "? Just give the final converted number and the currency code." ] in
          Normal (VObj [ ("contents", VArr [VObj [("parts", VArr [VObj [("text", VStr currencyPrompt)]])]]);
               ("tools", VArr [VObj [("google_search", VObj [])]]) ]))
  else None.

(** The message of [new Error(errorData.error?.message || 'Failed to fetch from Gemini API')]. *)
Definition failure_reason (errorData : value) : Completion string :=
  let* err := GetV errorData "error" in
  let* m := GetOpt err "message" in
  ToString (if ToBoolean m then m else VStr "Failed to fetch from Gemini API").

(** The [try] block of lines 169-199. *)
Definition respond (up : Upstream) (type : value) (apiUrl : string) (payload : value)
  : M unit :=
  try_catch
    (response <- fetch up (upstream_call apiUrl payload) ;;
     if negb (ok response) then
       errorData <- lift (response_json response) ;;
       reason <- lift (failure_reason errorData) ;;
       throw (Error reason)
     else
       result <- lift (response_json response) ;;
       if strict_eq type "itinerary" then
           try_catch
             (jsonText <- lift (candidate_text result) ;;
              parsedJson <- lift (let* s := ToString jsonText in JSON_parse s) ;;
              res_status 200 ;;
              res_json parsedJson)
             (fun parseError =>
                console_error [LogText "Failed to parse itinerary JSON from model:";
                               LogError parseError] ;;
                original <- lift (candidate_text_opt result) ;;
                console_error [LogText "Original text from model:"; LogValue original] ;;
                res_status 500 ;;
                res_json (error_body
                  "The AI failed to generate a valid itinerary format. Please try again."))
       else
         res_status 200 ;;
         res_json result)
    (fun error =>
       console_error [LogText "Error in serverless function:"; LogError error] ;;
       res_status 500 ;;
       res_json (error_body (message error))).

(** [handler(req, res)], with [process.env.GEMINI_API_KEY] and the upstream
    as explicit arguments. *)
Definition handler (up : Upstream) (GEMINI_API_KEY : option string) (req : Request)
  : M unit :=
  if negb (String.eqb (req_method req) "POST") then
    res_status 405 ;;
    res_json (error_body "Method Not Allowed")
  else if key_missing GEMINI_API_KEY then
    res_status 500 ;;
    res_json (error_body "API key is not configured on the server.")
  else
    let API_KEY := match GEMINI_API_KEY with Some k => k | None => EmptyString end in
    let apiUrl := API_URL_BASE ++ "?key=" ++ API_KEY in
    tb <- lift (destructure (req_body req)) ;;
    let '(type, body) := tb in
    match build type body with
    | Some building =>
        payload <- lift building ;;
        respond up type apiUrl payload
    | None =>
        res_status 400 ;;
        res_json (error_body "Invalid API request type")
    end.

End WithEngine.
End Superseded.

(** ** The authoritative dispatcher: src/unnamed/part_000 *)
Module Superset.
Section WithEngine.
Context {E : Engine}.

(** The prompt of the [itinerary] case (lines 30-63). *)
Definition itinerary_prompt (data : value) : Completion string :=
  template
  [ Lit "
You are an AI travel assistant. Your task is to generate a travel itinerary based on the user's request.
You MUST format your response *strictly* according to the provided JSON schema.
Do not add any text, conversational chat, or markdown outside of the final JSON structure.

User Request:
- Destination: ";
    Sub (GetV data "cities");
    Lit ", ";
    Sub (GetV data "country");
    Lit "
- Staying At (Starting Point): ";
    Sub (or_else (GetV data "staying-at") (VStr "Central location"));
    Lit " 
- Duration: ";
    Sub (GetV data "duration");
    Lit " days
- Travelers: ";
    Sub (GetV data "num-people");
    Lit "
- Budget: ";
    Sub (GetV data "budget");
    Lit "
- Pace: ";
    Sub (GetV data "trip-pace");
    Lit "
- Accommodation: ";
    Sub (GetV data "accommodation-type");
    Lit "
- Interests: ";
    Sub (or_else (GetV data "interests") (VStr "N/A"));
    Lit ("

IMPORTANT INSTRUCTIONS:
1.  If " ++ dq ++ "Staying At" ++ dq ++ " is specific (not 'Central location'), you MUST assume the user starts their day there. 
    Optimise the daily order of activities to minimize travel time from that starting point.
2.  **PERSONAL TOUCH:** For each day, provide one or two specific suggestions for lunch and dinner as a `foodSuggestion`. 
    These should be relevant to the day's activities and location (e.g., " ++ dq ++ "For dinner, try the famous biryani at Saravana Bhavan near the temple." ++ dq ++ ").

JSON Schema Instructions:
1.  **title**: Generate a concise, catchy title for the trip (e.g., " ++ dq ++ "3-Day Foodie Tour of Rome" ++ dq ++ ").
2.  **summary**: Write a 2-3 sentence summary of the trip.
3.  **budgetTier**: Use the user's requested budget (e.g., " ++ dq);
    Sub (GetV data "budget");
    Lit (dq ++ ").
4.  **numberOfPeople**: Use the user's requested number (e.g., ");
    Sub (GetV data "num-people");
    Lit (").
5.  **costPerHeadUSD**: Estimate a reasonable cost per person in USD (number only).
6.  **bestSeasonToVisit**: Suggest the best season to visit (e.g., " ++ dq ++ "Spring (April-June)" ++ dq ++ ").
7.  **days**: Create an array for each day.
8.  **day object**: Each day *must* have a " ++ dq ++ "day" ++ dq ++ " number, " ++ dq ++ "theme" ++ dq ++ ", " ++ dq ++ "city" ++ dq ++ ", " ++ dq ++ "transportation_tip" ++ dq ++ ", " ++ dq ++ "foodSuggestion" ++ dq ++ ", and an " ++ dq ++ "activities" ++ dq ++ " array.
9.  **activity object**: Each activity *must* have a " ++ dq ++ "name" ++ dq ++ ", " ++ dq ++ "type" ++ dq ++ "," ++ dq ++ "details" ++ dq ++ ", " ++ dq ++ "address" ++ dq ++ ", " ++ dq ++ "approxCostUSD" ++ dq ++ ", and " ++ dq ++ "crowdLevel" ++ dq ++ " (Low, Moderate, or High).

IMPORTANT: Your entire response must be ONLY the JSON object, starting with { and ending with }.
") ].

Definition responseSchema : value :=
  VObj
    [ ("type", VStr "OBJECT");
      ("properties", VObj
         [ ("title", STRING);
           ("numberOfPeople", NUMBER);
           ("budgetTier", STRING);
           ("costPerHeadUSD", NUMBER);
           ("summary", STRING);
           ("bestSeasonToVisit", STRING);
           ("days", VObj
              [ ("type", VStr "ARRAY");
                ("items", VObj
                   [ ("type", VStr "OBJECT");
                     ("properties", VObj
                        [ ("day", NUMBER);
                          ("theme", STRING);
                          ("city", STRING);
                          ("transportation_tip", STRING);
                        ("foodSuggestion", STRING);
                          ("activities", VObj
                             [ ("type", VStr "ARRAY");
                               ("items", VObj
                                  [ ("type", VStr "OBJECT");
                                    ("properties", VObj
                                       [ ("name", STRING);
                                         ("type", STRING);
                                         ("crowdLevel", STRING);
                                         ("approxCostUSD", NUMBER);
                                         ("details", STRING);
                                         ("address", STRING) ]);
                                    ("required",
                                     strings ["name"; "type"; "details"; "approxCostUSD";
                                              "crowdLevel"; "address"]) ]) ]) ]);
                     ("required",
                      strings ["day"; "theme"; "city"; "activities";
                               "transportation_tip"; "foodSuggestion"]) ]) ]) ]);
      ("required",
       strings ["title"; "numberOfPeople"; "budgetTier"; "costPerHeadUSD";
                "summary"; "bestSeasonToVisit"; "days"]) ].

(** The [switch (type)] of lines 23-192: [None] is the [default] case.  Every
    other case first assigns [apiUrl], then builds [payload], which may throw. *)
Definition build (API_KEY : string) (type body : value)
  : option (string * Completion value) :=
  if strict_eq type "itinerary" then
    Some ("https://generativelanguage.googleapis.com/v1beta/models/gemini-2.5-flash-preview-09-2025:generateContent?key=" ++ API_KEY,
          let* data := GetV body "data" in
          let* prompt := itinerary_prompt data in
          Normal (VObj
          [ ("contents", VArr [VObj [("parts", VArr [VObj [("text", VStr prompt)]])]]);
            ("generationConfig", VObj
               [ ("temperature", VNum (1 # 10));
                 ("responseMimeType", VStr "application/json");
                 ("responseSchema", responseSchema) ]) ]))
  else if strict_eq type "groundedSearch" then
    Some ("https://generativelanguage.googleapis.com/v1beta/models/gemini-2.5-flash-preview-09-2025:generateContent?key=" ++ API_KEY,
          let* query := GetV body "query" in
          Normal (VObj [ ("contents", VArr [VObj [("parts", VArr [VObj [("text", query)]])]]);
               ("tools", VArr [VObj [("google_search", VObj [])]]) ]))
  else if strict_eq type "contextualQa" then
    Some ("https://generativelanguage.googleapis.com/v1beta/models/gemini-2.5-flash-preview-09-2025:generateContent?key=" ++ API_KEY,
          let* context := GetV body "context" in
          let* question := GetV body "question" in
          let* qaPrompt := template
        [ Lit ("Regarding the travel activity or location " ++ dq);
          Sub (Normal context);
          Lit (dq ++ ", please provide a concise and helpful answer to the following user question: " ++ dq);
          Sub (Normal question);
          Lit dq ] in
          Normal (VObj [ ("contents", VArr [VObj [("parts", VArr [VObj [("text", VStr qaPrompt)]])]]);
               ("tools", VArr [VObj [("google_search", VObj [])]]) ]))
  else if strict_eq type "flights" then
    Some ("https://generativelanguage.googleapis.com/v1beta/models/gemini-2.5-flash-preview-09-2025:generateContent?key=" ++ API_KEY,
          let* flightData := GetV body "data" in
          let* flightPrompt := template
        [ Lit "Find the cheapest flight options from ";
          Sub (GetV flightData "flight-origin");
          Lit " to ";
          Sub (GetV flightData "flight-destination");
          Lit ", departing on ";
          Sub (GetV flightData "flight-depart-date");
          Sub (let* back := GetV flightData "flight-return-date" in
               if ToBoolean back
               then let* s := template [ Lit " and returning on ";
                                         Sub (GetV flightData "flight-return-date") ] in
                    Normal (VStr s)
               else Normal (VStr EmptyString));
          Lit " for ";
          Sub (GetV flightData "flight-travelers");
          Lit " traveler(s) in ";
          Sub (GetV flightData "flight-cabin");
          Lit " class. Summarize the best 2-3 options. IMPORTANT: Make sure all airline names are enclosed in asterisks to make them bold, for example **IndiGo** or **SriLankan Airlines**." ] in
          Normal (VObj [ ("contents", VArr [VObj [("parts", VArr [VObj [("text", VStr flightPrompt)]])]]);
               ("tools", VArr [VObj [("google_search", VObj [])]]) ]))
  else if strict_eq type "packingList" then
    Some ("https://generativelanguage.googleapis.com/v1beta/models/gemini-2.5-flash-preview-09-2025:generateContent?key=" ++ API_KEY,
          let* packData := GetV body "data" in
          let* packPrompt := template
        [ Lit "Generate a detailed packing list for a trip to ";
          Sub (GetV packData "pack-destination");
          Lit " for ";
          Sub (GetV packData "pack-duration");
          Lit " days, during the ";
          Sub (GetV packData "pack-season");
          Lit ". Special activities include: ";
          Sub (GetV packData "pack-activities");
          Lit ". Format the output as a Markdown list." ] in
          Normal (VObj [ ("contents", VArr [VObj [("parts", VArr [VObj [("text", VStr packPrompt)]])]]) ]))
  else if strict_eq type "currency" then
    Some ("https://generativelanguage.googleapis.com/v1beta/models/gemini-2.5-flash-preview-09-2025:generateContent?key=" ++ API_KEY,
          let* currencyPrompt := template
        [ Lit "What is the current exchange rate for ";
          Sub (GetV body "amount");
          Lit " ";
          Sub (GetV body "from");
          Lit " to ";
          Sub (GetV body "to");
          Lit "? Just give the final converted number and the currency code." ] in
          Normal (VObj [ ("contents", VArr [VObj [("parts", VArr [VObj [("text", VStr currencyPrompt)]])]]);
               ("tools", VArr [VObj [("google_search", VObj [])]]) ]))
  else if strict_eq type "generateImage" then
    Some ("https://generativelanguage.googleapis.com/v1beta/models/imagen-4.0-generate-001:predict?key=" ++ API_KEY,
          let* imagePrompt := template
        [ Lit "A beautiful, high-quality, professional photograph of: ";
          Sub (GetV body "prompt");
          Lit ". Realistic, 16:9 aspect ratio." ] in
          Normal (VObj [ ("instances", VArr [VObj [("prompt", VStr imagePrompt)]]);
                         ("parameters", VObj [("sampleCount", VNum 1)]) ]))
  else None.

(** [result.predictions && result.predictions.length > 0] as an [if] test. *)
Definition has_predictions (result : value) : Completion bool :=
  let* predictions := GetV result "predictions" in
  if ToBoolean predictions then
    let* again := GetV result "predictions" in
    let* len := GetV again "length" in
    gt_zero len
  else Normal false.

(** [result.predictions[0].bytesBase64Encoded] *)
Definition first_image (result : value) : Completion value :=
  let* predictions := GetV result "predictions" in
  let* p0 := GetV predictions "0" in
  GetV p0 "bytesBase64Encoded".

(** The message of [new Error(errorData.error?.message || 'Failed to fetch from API')]. *)
Definition failure_reason (errorData : value) : Completion string :=
  let* err := GetV errorData "error" in
  let* m := GetOpt err "message" in
  ToString (if ToBoolean m then m else VStr "Failed to fetch from API").

(** The [try] block of lines 194-239. *)
Definition respond (up : Upstream) (type : value) (apiUrl : string) (payload : value)
  : M unit :=
  try_catch
    (response <- fetch up (upstream_call apiUrl payload) ;;
     if negb (ok response) then
       errorData <- lift (response_json response) ;;
       reason <- lift (failure_reason errorData) ;;
       throw (Error reason)
     else
       result <- lift (response_json response) ;;
       if strict_eq type "generateImage" then
         some <- lift (has_predictions result) ;;
         if some then
           res_status 200 ;;
           image <- lift (first_image result) ;;
           res_json (VObj [("base64Image", image)])
         else throw (Error "No image was generated.")
       else if strict_eq type "itinerary" then
           try_catch
             (jsonText <- lift (candidate_text result) ;;
              parsedJson <- lift (let* s := ToString jsonText in JSON_parse s) ;;
              res_status 200 ;;
              res_json parsedJson)
             (fun parseError =>
                console_error [LogText "Failed to parse itinerary JSON from model:";
                               LogError parseError] ;;
                original <- lift (candidate_text_opt result) ;;
                console_error [LogText "Original text from model:"; LogValue original] ;;
                res_status 500 ;;
                res_json (error_body
                  "The AI failed to generate a valid itinerary format. Please try again."))
       else
         res_status 200 ;;
         res_json result)
    (fun error =>
       console_error [LogText "Error in serverless function:"; LogError error] ;;
       res_status 500 ;;
       res_json (error_body (message error))).

(** [handler(req, res)], with [process.env.GEMINI_API_KEY] and the upstream
    as explicit arguments. *)
Definition handler (up : Upstream) (GEMINI_API_KEY : option string) (req : Request)
  : M unit :=
  if negb (String.eqb (req_method req) "POST") then
    res_status 405 ;;
    res_json (error_body "Method Not Allowed")
  else if key_missing GEMINI_API_KEY then
    res_status 500 ;;
    res_json (error_body "API key is not configured on the server.")
  else
    let API_KEY := match GEMINI_API_KEY with Some k => k | None => EmptyString end in
    tb <- lift (destructure (req_body req)) ;;
    let '(type, body) := tb in
    match build API_KEY type body with
    | Some (apiUrl, building) =>
        payload <- lift building ;;
        respond up type apiUrl payload
    | None =>
        res_status 400 ;;
        res_json (error_body "Invalid API request type")
    end.

End WithEngine.
End Superset.

(** ** The offline cache: src/sw.js *)

(** [hay.includes(needle)] *)
Fixpoint includes (needle hay : string) : bool :=
  if String.prefix needle hay then true
  else match hay with
       | EmptyString => false
       | String _ rest => includes needle rest
       end.

(** [s.startsWith(start)] *)
Definition startsWith (start s : string) : bool := String.prefix start s.

Module ServiceWorker.

Definition CACHE_NAME : string := "travel-hub-cache-v2".

Definition PRECACHE_ASSETS : list string :=
  [ "/";
    "/index.html";
    "https://cdn.tailwindcss.com";
    "https://cdn.jsdelivr.net/npm/marked/marked.min.js";
    "https://cdn.jsdelivr.net/npm/@supabase/supabase-js@2";
    "https://fonts.googleapis.com/css2?family=Inter:wght@100..900&display=swap" ].

(** [event.request]: its [method] and [url]. *)
Record FetchRequest : Type := { request_method : string; request_url : string }.

(** A response as the worker sees it: [status], [type] and [url] are the
    properties it reads, [content] stands for the rest. *)
Record NetworkResponse : Type := {
  response_status : nat;
  response_type : string;
  response_url : string;
  content : string
}.

(** What the worker does to its collaborators, in program order. *)
Inductive Effect : Type :=
| NetFetch (request : FetchRequest)
| CachesOpen (name : string)
| CacheMatch (name : string) (request : FetchRequest)
| CachesMatch (request : FetchRequest)
| CachePut (name : string) (request : FetchRequest) (response : NetworkResponse)
| CachesDelete (name : string)
| ClientsClaim
| ConsoleLog (text name : string)
| ConsoleError (text : string) (e : JsError).

(** How the promise given to [event.respondWith] settles; [Fulfilled None]
    is a promise fulfilled with [undefined]. *)
Inductive Settled : Type :=
| Fulfilled (response : option NetworkResponse)
| RejectedWith (e : JsError).

Definition settle (network : Completion NetworkResponse) : Settled :=
  match network with
  | Normal networkResponse => Fulfilled (Some networkResponse)
  | Throw e => RejectedWith e
  end.

(** The [fetch] listener (lines 44-108).  [hit] is what the cache lookup
    of the request resolves to ([None] for [undefined]) and [network] how
    [fetch(event.request)] settles; the cache storage itself is taken to
    answer [open] and [put], and a response [fetch] resolves with is an
    object, so the [!networkResponse] of line 86 is false.  The result is
    the promise handed to
    [event.respondWith] ([None] when the listener returns without calling
    it, which leaves the request to the browser) and the effects once all
    promises have settled. *)
Definition onfetch (request : FetchRequest) (hit : option NetworkResponse)
           (network : Completion NetworkResponse) : option Settled * list Effect :=
  if negb (String.eqb (request_method request) "GET") then
    (None, [])
  else if includes "fonts.gstatic.com" (request_url request) then
    (Some (match hit with
           | Some response => Fulfilled (Some response)
           | None => settle network
           end),
     [CachesOpen CACHE_NAME; CacheMatch CACHE_NAME request; NetFetch request]
     ++ match network with
        | Normal networkResponse => [CachePut CACHE_NAME request networkResponse]
        | Throw _ => []
        end)%list
  else if includes "/api/proxy" (request_url request) then
    (Some (settle network), [NetFetch request])
  else
    match hit with
    | Some response => (Some (Fulfilled (Some response)), [CachesMatch request])
    | None =>
        match network with
        | Normal networkResponse =>
            if (negb (Nat.eqb (response_status networkResponse) 200)
                || negb (String.eqb (response_type networkResponse) "basic"))
               && negb (startsWith "chrome-extension://" (response_url networkResponse))
            then (Some (Fulfilled (Some networkResponse)),
                  [CachesMatch request; NetFetch request])
            else (Some (Fulfilled (Some networkResponse)),
                  [CachesMatch request; NetFetch request;
                   CachesOpen CACHE_NAME; CachePut CACHE_NAME request networkResponse])
        | Throw error =>
            (Some (Fulfilled None),
             [CachesMatch request; NetFetch request;
              ConsoleError "Service Worker: Fetch failed" error])
        end
    end.

(** The cache storage: the named caches in creation order, each with its
    entries. *)
Definition CacheStorage : Type := list (string * list (FetchRequest * NetworkResponse)).

(** [caches.delete(cacheName)] *)
Definition caches_delete (cacheName : string) (caches : CacheStorage) : CacheStorage :=
  filter (fun cache => negb (String.eqb (fst cache) cacheName)) caches.

(** The [activate] listener (lines 26-41): over [caches.keys()], every
    cache whose name is not [CACHE_NAME] is logged and deleted; then the
    clients are claimed. *)
Definition onactivate (caches : CacheStorage) : CacheStorage * list Effect :=
  let cacheNames := map fst caches in
  (fold_left (fun remaining cacheName =>
                if negb (String.eqb cacheName CACHE_NAME)
                then caches_delete cacheName remaining
                else remaining)
             cacheNames caches,
   (flat_map (fun cacheName =>
                if negb (String.eqb cacheName CACHE_NAME)
                then [ConsoleLog "Service Worker: Clearing old cache" cacheName;
                      CachesDelete cacheName]
                else [])
             cacheNames
    ++ [ClientsClaim])%list).

End ServiceWorker.

(** ** Vocabulary of the properties *)

(** The world after one upstream call and one response. *)
Definition answered (call : UpstreamCallSpec) (code : nat) (b : value)
           (logs : list (list LogArg)) : World :=
  {| statusCode := code;
     sent := [{| status := code; json := b |}];
     fetched := [call];
     console := logs |}.

(** The world the outer [catch] leaves for the error [e]. *)
Definition failed (call : UpstreamCallSpec) (e : JsError)
           (logs : list (list LogArg)) : World :=
  answered call 500 (error_body (message e))
           (logs ++ [[LogText "Error in serverless function:"; LogError e]])%list.

Definition rejected_world : World :=
  {| statusCode := 400;
     sent := [{| status := 400; json := error_body "Invalid API request type" |}];
     fetched := [];
     console := [] |}.

Definition unconfigured_world : World :=
  {| statusCode := 500;
     sent := [{| status := 500;
                 json := error_body "API key is not configured on the server." |}];
     fetched := [];
     console := [] |}.

Definition method_not_allowed_world : World :=
  {| statusCode := 405;
     sent := [{| status := 405; json := error_body "Method Not Allowed" |}];
     fetched := [];
     console := [] |}.

(** The statuses the handler writes, and the body that goes with each
    status other than 200. *)
Definition well_formed_response (r : Response) : Prop :=
  status r = 200%nat \/
  ((status r = 400%nat \/ status r = 405%nat \/ status r = 500%nat) /\
   exists m : string, json r = error_body m).

Definition malformed_itinerary : value :=
  error_body "The AI failed to generate a valid itinerary format. Please try again.".

Definition parse_failure_log (parseError : JsError) : list LogArg :=
  [LogText "Failed to parse itinerary JSON from model:"; LogError parseError].

(** How a [try] block can end: with a 500 and an [{error}] body, or with a
    200 after an upstream response that was [ok] and carried JSON. *)
Definition settled (up : Upstream) (call : UpstreamCallSpec) (w : World) : Prop :=
  (exists (m : string) (logs : list (list LogArg)),
      w = answered call 500 (error_body m) logs) \/
  (exists (b result : value) (logs : list (list LogArg)),
      w = answered call 200 b logs /\
      up call = Resolved {| ok := true; response_json := Normal result |}).

(** The five ways a run of the handler ends. *)
Inductive ending (up : Upstream) : Completion unit * World -> Prop :=
| ends_405 : ending up (Normal tt, method_not_allowed_world)
| ends_unconfigured : ending up (Normal tt, unconfigured_world)
| ends_400 : ending up (Normal tt, rejected_world)
| ends_unhandled (e : JsError) : ending up (Throw e, init)
| ends_settled (call : UpstreamCallSpec) (w : World) :
    settled up call w -> ending up (Normal tt, w).

(** The kinds whose prompt is written from [body.data]. *)
Definition needs_data : list RequestKind := [itinerary; flights; packingList].

(** A value every part of which converts to a string: no object in it has
    an own [toString] property. *)
Fixpoint plain (v : value) : bool :=
  match v with
  | VArr items =>
      (fix all (l : list value) : bool :=
         match l with
         | [] => true
         | x :: rest => plain x && all rest
         end) items
  | VObj fields =>
      negb (hasOwn "toString" fields) &&
      (fix all (l : list (string * value)) : bool :=
         match l with
         | [] => true
         | (_, x) :: rest => plain x && all rest
         end) fields
  | _ => true
  end.

(** The substitutions of a template that cannot throw. *)
Definition converts `{Engine} (p : piece) : Prop :=
  match p with
  | Lit _ => True
  | Sub e => exists v : value, e = Normal v /\ plain v = true
  end.

Definition is_network_fetch (request : ServiceWorker.FetchRequest)
           (e : ServiceWorker.Effect) : Prop :=
  e = ServiceWorker.NetFetch request.

(** A cache survives the deletions for [names] when no name other than
    [CACHE_NAME] is its own. *)
Definition survives (names : list string)
           (cache : string * list (ServiceWorker.FetchRequest * ServiceWorker.NetworkResponse))
  : bool :=
  forallb (fun cacheName => String.eqb cacheName ServiceWorker.CACHE_NAME
                            || negb (String.eqb (fst cache) cacheName)) names.

Definition contains (needle hay : string) : Prop :=
  exists pre post : string, hay = pre ++ needle ++ post.

Definition text_kind (k : RequestKind) : bool :=
  match k with
  | generateImage => false
  | _ => true
  end.

(** [{contents: [{parts: [{text}]}], generationConfig?, tools?}] *)
Definition text_shape (payload : value) : Prop :=
  exists (text : value) (others : list (string * value)),
    payload = VObj (("contents", VArr [VObj [("parts", VArr [VObj [("text", text)]])]])
                    :: others) /\
    Forall (fun field => fst field = "generationConfig" \/ fst field = "tools") others.

(** [{instances: [{prompt}], parameters: {sampleCount: 1}}] *)
Definition image_shape (payload : value) : Prop :=
  exists prompt : string,
    payload = VObj [ ("instances", VArr [VObj [("prompt", VStr prompt)]]);
                     ("parameters", VObj [("sampleCount", VNum 1)]) ].


(** ** An engine for concrete runs *)

(** The theorems below hold for every [Engine].  To run the model on a
    concrete request one engine is needed: this one prints and reads
    integers only, and its [JSON.parse] accepts the documents [null], [true],
    [false], [{}] and [[]] and rejects every other text. *)
Definition sample_Number_toString (q : Q) : string :=
  NilZero.string_of_int (Z.to_int (Qnum q / Zpos (Qden q))).

Definition sample_String_toNumber (s : string) : option Q :=
  match NilZero.int_of_string s with
  | Some i => Some (inject_Z (Z.of_int i))
  | None => None
  end.

Definition sample_JSON_parse (s : string) : Completion value :=
  if String.eqb s "null" then Normal VNull
  else if String.eqb s "true" then Normal (VBool true)
  else if String.eqb s "false" then Normal (VBool false)
  else if String.eqb s "{}" then Normal (VObj [])
  else if String.eqb s "[]" then Normal (VArr [])
  else Throw (SyntaxError ("Unexpected token in JSON: " ++ s)).

Definition sample_engine : Engine :=
  {| Number_toString := sample_Number_toString;
     String_toNumber := sample_String_toNumber;
     JSON_parse := sample_JSON_parse |}.

(** An upstream that gives every call the same answer. *)
Definition always (o : FetchOutcome) : Upstream := fun _ => o.

Definition answers (okay : bool) (b : Completion value) : Upstream :=
  always (Resolved {| ok := okay; response_json := b |}).

Definition post (b : value) : Request := {| req_method := "POST"; req_body := b |}.

(** ** Requests and documents used in the examples *)

Definition sample_trip : value :=
  VObj [ ("cities", VStr "Paris"); ("country", VStr "France"); ("duration", VNum 3);
         ("num-people", VNum 2); ("budget", VStr "Medium");
         ("trip-pace", VStr "Relaxed"); ("accommodation-type", VStr "Hotel") ].

Definition itinerary_request : Request :=
  post (VObj [("type", VStr "itinerary"); ("data", sample_trip)]).

Definition image_request : Request :=
  post (VObj [("type", VStr "generateImage"); ("prompt", VStr "Eiffel Tower at dusk")]).

Definition currency_request : Request :=
  post (VObj [("type", VStr "currency"); ("amount", VNum 100);
              ("from", VStr "USD"); ("to", VStr "EUR")]).

(** A well-formed body for each kind. *)
Definition sample_body (k : RequestKind) : value :=
  match k with
  | itinerary => VObj [("data", sample_trip)]
  | groundedSearch => VObj [("query", VStr "best time to visit Kandy")]
  | contextualQa =>
      VObj [("context", VStr "Louvre Museum"); ("question", VStr "Is it open on Mondays?")]
  | flights =>
      VObj [("data", VObj [ ("flight-origin", VStr "CMB"); ("flight-destination", VStr "CDG");
                            ("flight-depart-date", VStr "2025-05-01");
                            ("flight-travelers", VNum 2); ("flight-cabin", VStr "economy") ])]
  | packingList =>
      VObj [("data", VObj [ ("pack-destination", VStr "Paris"); ("pack-duration", VNum 3);
                            ("pack-season", VStr "spring");
                            ("pack-activities", VStr "museums") ])]
  | currency => VObj [("amount", VNum 100); ("from", VStr "USD"); ("to", VStr "EUR")]
  | generateImage => VObj [("prompt", VStr "Eiffel Tower at dusk")]
  end.

(** The upstream document [{candidates:[{content:{parts:[{text}]}}]}]. *)
Definition model_says (text : value) : value :=
  VObj [("candidates", VArr [VObj [("content", VObj [("parts", VArr [VObj [("text", text)]])])]])].

(** A page of the application, the response of its own server, and an
    answer of another origin. *)
Definition page_request : ServiceWorker.FetchRequest :=
  {| ServiceWorker.request_method := "GET";
     ServiceWorker.request_url := "https://app.example/index.html" |}.

Definition page_response : ServiceWorker.NetworkResponse :=
  {| ServiceWorker.response_status := 200;
     ServiceWorker.response_type := "basic";
     ServiceWorker.response_url := "https://app.example/index.html";
     ServiceWorker.content := "<html>" |}.

Definition missing_page : ServiceWorker.NetworkResponse :=
  {| ServiceWorker.response_status := 404;
     ServiceWorker.response_type := "basic";
     ServiceWorker.response_url := "https://app.example/index.html";
     ServiceWorker.content := "Not Found" |}.

Definition font_request : ServiceWorker.FetchRequest :=
  {| ServiceWorker.request_method := "GET";
     ServiceWorker.request_url := "https://fonts.gstatic.com/s/inter/v13/inter.woff2" |}.

(** * Properties *)

(** ** Reaching the switch *)

Lemma strict_eq_unrecognized (type : value) (k : RequestKind) :
  recognized type = false -> strict_eq type (kind_name k) = false.
Proof.
  destruct type as [ | | b | q | t | items | fields ]; try reflexivity.
  unfold recognized, all_kinds, existsb, strict_eq.
  intros H.
  repeat (apply orb_false_elim in H; destruct H as [? H]).
  destruct k; assumption.
Qed.

(** The [case] of kind [k] does not match an unrecognized [type]. *)
Ltac skip_case H0 k :=
  let Hk := fresh "Hk" in
  pose proof (strict_eq_unrecognized _ k H0) as Hk;
  cbn [kind_name] in Hk; rewrite Hk; clear Hk.

Lemma superset_build_unrecognized `{Engine} (API_KEY : string) (type body : value) :
  recognized type = false -> Superset.build API_KEY type body = None.
Proof.
  intros H0. unfold Superset.build.
  skip_case H0 itinerary. skip_case H0 groundedSearch. skip_case H0 contextualQa.
  skip_case H0 flights. skip_case H0 packingList. skip_case H0 currency.
  skip_case H0 generateImage.
  reflexivity.
Qed.

Lemma superseded_build_unrecognized `{Engine} (type body : value) :
  recognized type = false -> Superseded.build type body = None.
Proof.
  intros H0. unfold Superseded.build.
  skip_case H0 itinerary. skip_case H0 groundedSearch. skip_case H0 contextualQa.
  skip_case H0 flights. skip_case H0 packingList. skip_case H0 currency.
  reflexivity.
Qed.

Lemma key_present (API_KEY : string) :
  API_KEY <> EmptyString -> key_missing (Some API_KEY) = false.
Proof.
  intros Hk. unfold key_missing.
  destruct (String.eqb_spec API_KEY EmptyString); [contradiction | reflexivity].
Qed.

(** A POST with a configured key and a destructurable body runs the switch
    and, when the payload is built, the [try] block, in the initial world. *)
Lemma superset_dispatch `{Engine} (up : Upstream) (API_KEY : string) (req : Request)
      (type body : value) :
  req_method req = "POST" ->
  API_KEY <> EmptyString ->
  destructure (req_body req) = Normal (type, body) ->
  Superset.handler up (Some API_KEY) req init =
  match Superset.build API_KEY type body with
  | Some (apiUrl, Normal payload) => Superset.respond up type apiUrl payload init
  | Some (_, Throw e) => (Throw e, init)
  | None => (Normal tt,
             {| statusCode := 400;
                sent := [{| status := 400; json := error_body "Invalid API request type" |}];
                fetched := []; console := [] |})
  end.
Proof.
  intros Hpost Hkey Hbody. unfold Superset.handler.
  rewrite Hpost, (key_present _ Hkey). cbn [String.eqb Ascii.eqb Bool.eqb negb].
  unfold bind at 1, lift at 1. rewrite Hbody.
  destruct (Superset.build API_KEY type body) as [[apiUrl [payload | e]] | ]; reflexivity.
Qed.

Lemma superseded_dispatch `{Engine} (up : Upstream) (API_KEY : string) (req : Request)
      (type body : value) :
  req_method req = "POST" ->
  API_KEY <> EmptyString ->
  destructure (req_body req) = Normal (type, body) ->
  Superseded.handler up (Some API_KEY) req init =
  match Superseded.build type body with
  | Some (Normal payload) =>
      Superseded.respond up type (Superseded.API_URL_BASE ++ "?key=" ++ API_KEY) payload init
  | Some (Throw e) => (Throw e, init)
  | None => (Normal tt,
             {| statusCode := 400;
                sent := [{| status := 400; json := error_body "Invalid API request type" |}];
                fetched := []; console := [] |})
  end.
Proof.
  intros Hpost Hkey Hbody. unfold Superseded.handler.
  rewrite Hpost, (key_present _ Hkey). cbn [String.eqb Ascii.eqb Bool.eqb negb].
  unfold bind at 1, lift at 1. rewrite Hbody.
  destruct (Superseded.build type body) as [[payload | e] | ]; reflexivity.
Qed.

(** ** Guards in front of the switch *)

Lemma superset_no_key `{Engine} (up : Upstream) (key : option string) (req : Request) :
  req_method req = "POST" ->
  key_missing key = true ->
  Superset.handler up key req init = (Normal tt, unconfigured_world).
Proof.
  intros Hpost Hmiss. unfold Superset.handler.
  rewrite Hpost, Hmiss. reflexivity.
Qed.

(** C2.  A POST that arrives while the API key is absent (unset, or set to
    the empty string) is answered with status 500 and
    [{error: 'API key is not configured on the server.'}]; the body of the
    request is not even read, no payload is built and no upstream call is
    made, whatever the request type. *)
Theorem missing_key_is_reported `{Engine} (up : Upstream) (key : option string)
        (req : Request) :
  req_method req = "POST" ->
  key_missing key = true ->
  Superset.handler up key req init
  = (Normal tt,
     {| statusCode := 500;
        sent := [{| status := 500;
                    json := VObj [("error", VStr "API key is not configured on the server.")] |}];
        fetched := [];
        console := [] |}).
Proof. exact (superset_no_key up key req). Qed.

Lemma missing_key_is_reported_witness :
  req_method (post VUndefined) = "POST" /\
  key_missing None = true /\
  @Superset.handler sample_engine (always (Rejected (Error "offline"))) None
                    (post VUndefined) init
  = (Normal tt, unconfigured_world).
Proof.
  split; [reflexivity | split; [reflexivity | ]].
  apply (@missing_key_is_reported sample_engine); reflexivity.
Defined.

(** C1, as the code has it.  A request whose [type] is none of the seven
    kinds never reaches the upstream, in either version of the dispatcher;
    and when it is a POST arriving while the API key is configured, it is
    answered with status 400 and [{error: 'Invalid API request type'}].
    (The method and key guards come first: they answer 405 and 500.) *)
Theorem unrecognized_type_is_rejected `{Engine} (up : Upstream) (key : option string)
        (req : Request) (type body : value) :
  destructure (req_body req) = Normal (type, body) ->
  recognized type = false ->
  (fetched (snd (Superset.handler up key req init)) = [] /\
   fetched (snd (Superseded.handler up key req init)) = []) /\
  (req_method req = "POST" ->
   key_missing key = false ->
   Superset.handler up key req init = (Normal tt, rejected_world) /\
   Superseded.handler up key req init = (Normal tt, rejected_world)).
Proof.
  intros Hbody Hun.
  assert (Hgo : req_method req = "POST" -> key_missing key = false ->
                Superset.handler up key req init = (Normal tt, rejected_world) /\
                Superseded.handler up key req init = (Normal tt, rejected_world)).
  { intros Hpost Hkey. destruct key as [API_KEY | ]; [ | discriminate Hkey].
    assert (Hne : API_KEY <> EmptyString).
    { intros ->. discriminate Hkey. }
    rewrite (superset_dispatch up API_KEY req type body Hpost Hne Hbody),
            (superseded_dispatch up API_KEY req type body Hpost Hne Hbody),
            (superset_build_unrecognized API_KEY type body Hun),
            (superseded_build_unrecognized type body Hun).
    split; reflexivity. }
  split; [ | exact Hgo].
  destruct (String.eqb_spec (req_method req) "POST") as [Hpost | Hother].
  - destruct (key_missing key) eqn:Hkey.
    + unfold Superset.handler, Superseded.handler.
      rewrite Hpost, Hkey. split; reflexivity.
    + destruct (Hgo Hpost eq_refl) as [-> ->]. split; reflexivity.
  - unfold Superset.handler, Superseded.handler.
    apply String.eqb_neq in Hother. rewrite Hother. split; reflexivity.
Qed.

Lemma unrecognized_type_is_rejected_witness :
  destructure (VObj [("type", VStr "bogus"); ("query", VStr "x")])
  = Normal (VStr "bogus", VObj [("query", VStr "x")]) /\
  recognized (VStr "bogus") = false /\
  @Superset.handler sample_engine (always (Rejected (Error "offline"))) (Some "secret")
                    (post (VObj [("type", VStr "bogus"); ("query", VStr "x")])) init
  = (Normal tt, rejected_world).
Proof.
  split; [reflexivity | split; [reflexivity | ]].
  apply (@unrecognized_type_is_rejected sample_engine
           (always (Rejected (Error "offline"))) (Some "secret")
           (post (VObj [("type", VStr "bogus"); ("query", VStr "x")]))
           (VStr "bogus") (VObj [("query", VStr "x")]));
    reflexivity.
Defined.

(** C1 as stated fails: with no API key configured, a POST of type
    ["bogus"] is answered 500, not 400. *)
Lemma unrecognized_type_without_key :
  recognized (VStr "bogus") = false /\
  sent (snd (@Superset.handler sample_engine (always (Rejected (Error "offline"))) None
                               (post (VObj [("type", VStr "bogus")])) init))
  = [{| status := 500; json := error_body "API key is not configured on the server." |}] /\
  sent (snd (@Superset.handler sample_engine (always (Rejected (Error "offline"))) None
                               (post (VObj [("type", VStr "bogus")])) init))
  <> [{| status := 400; json := error_body "Invalid API request type" |}].
Proof.
  split; [reflexivity | split; [reflexivity | ]].
  cbv. intros Habs. discriminate Habs.
Qed.

(** ** The outcomes of the [try] block *)

Lemma strict_eq_true (v : value) (name : string) :
  strict_eq v name = true -> v = VStr name.
Proof.
  destruct v; try discriminate. simpl. intros Heq.
  apply String.eqb_eq in Heq. now subst.
Qed.

Ltac enter_try Hup :=
  unfold Superset.respond, Superseded.respond, try_catch, bind, fetch, lift, throw;
  rewrite Hup; cbn [ok response_json negb].

Section SupersetOutcomes.
Context {E : Engine}.
Variables (up : Upstream) (type : value) (apiUrl : string) (payload : value).

Local Abbreviation call := (upstream_call apiUrl payload).

Lemma superset_fetch_rejected (e : JsError) :
  up call = Rejected e ->
  Superset.respond up type apiUrl payload init = (Normal tt, failed call e []).
Proof. intros Hup. enter_try Hup. reflexivity. Qed.

Lemma superset_body_unreadable (okay : bool) (e : JsError) :
  up call = Resolved {| ok := okay; response_json := Throw e |} ->
  Superset.respond up type apiUrl payload init = (Normal tt, failed call e []).
Proof. intros Hup. enter_try Hup. destruct okay; reflexivity. Qed.

Lemma superset_not_ok (errorData : value) :
  up call = Resolved {| ok := false; response_json := Normal errorData |} ->
  Superset.respond up type apiUrl payload init =
  (Normal tt,
   failed call (match Superset.failure_reason errorData with
                | Normal reason => Error reason
                | Throw e => e
                end) []).
Proof.
  intros Hup. enter_try Hup.
  destruct (Superset.failure_reason errorData); reflexivity.
Qed.

Lemma superset_passthrough (result : value) :
  up call = Resolved {| ok := true; response_json := Normal result |} ->
  strict_eq type "generateImage" = false ->
  strict_eq type "itinerary" = false ->
  Superset.respond up type apiUrl payload init = (Normal tt, answered call 200 result []).
Proof.
  intros Hup Himg Hit. enter_try Hup. rewrite Himg, Hit. reflexivity.
Qed.

Lemma superset_image (result : value) :
  up call = Resolved {| ok := true; response_json := Normal result |} ->
  type = VStr "generateImage" ->
  Superset.respond up type apiUrl payload init =
  (Normal tt,
   match Superset.has_predictions result with
   | Normal true =>
       match Superset.first_image result with
       | Normal image => answered call 200 (VObj [("base64Image", image)]) []
       | Throw e => failed call e []
       end
   | Normal false => failed call (Error "No image was generated.") []
   | Throw e => failed call e []
   end).
Proof.
  intros Hup ->. enter_try Hup. cbn [strict_eq String.eqb Ascii.eqb Bool.eqb].
  destruct (Superset.has_predictions result) as [[ | ] | e]; try reflexivity.
  unfold res_status, res_json. cbn.
  destruct (Superset.first_image result); reflexivity.
Qed.

Lemma superset_itinerary (result : value) :
  up call = Resolved {| ok := true; response_json := Normal result |} ->
  type = VStr "itinerary" ->
  Superset.respond up type apiUrl payload init =
  (Normal tt,
   match (let* jsonText := candidate_text result in
          let* s := ToString jsonText in JSON_parse s) with
   | Normal parsedJson => answered call 200 parsedJson []
   | Throw parseError =>
       match candidate_text_opt result with
       | Normal original =>
           answered call 500 malformed_itinerary
                    [parse_failure_log parseError;
                     [LogText "Original text from model:"; LogValue original]]
       | Throw e => failed call e [parse_failure_log parseError]
       end
   end).
Proof.
  intros Hup ->. enter_try Hup. cbn [strict_eq String.eqb Ascii.eqb Bool.eqb].
  destruct (candidate_text result) as [jsonText | e1]; cbn [cbind];
    [destruct (ToString jsonText) as [s | e2]; cbn [cbind];
     [destruct (JSON_parse s) as [parsed | e3] | ] | ];
    try reflexivity;
    unfold console_error, res_status, res_json; cbn;
    destruct (candidate_text_opt result); reflexivity.
Qed.

End SupersetOutcomes.

(** ** Normalization of the upstream response *)

Lemma GetV_defined (v x : value) (k : string) :
  GetV v k = Normal x -> nullish v = false.
Proof. destruct v; simpl; intros Hget; try reflexivity; discriminate Hget. Qed.

(** When the strict read of the model text succeeds, the tolerant read of
    the logging line finds the same text. *)
Lemma candidate_text_opt_agrees (result jsonText : value) :
  candidate_text result = Normal jsonText -> candidate_text_opt result = Normal jsonText.
Proof.
  unfold candidate_text, candidate_text_opt.
  destruct (GetV result "candidates") as [candidates | ]; [ | discriminate]; cbn [cbind].
  destruct (GetV candidates "0") as [c0 | ]; [ | discriminate]; cbn [cbind].
  destruct (GetV c0 "content") as [content | ] eqn:Hc0; [ | discriminate]; cbn [cbind].
  rewrite (GetV_defined _ _ _ Hc0).
  destruct (GetV content "parts") as [parts | ] eqn:Hcontent; [ | discriminate]; cbn [cbind].
  rewrite (GetV_defined _ _ _ Hcontent).
  destruct (GetV parts "0") as [p0 | ]; [ | discriminate]; cbn [cbind].
  intros Htext. rewrite (GetV_defined _ _ _ Htext). exact Htext.
Qed.

Section Dispatched.
Context {E : Engine}.
Variables (up : Upstream) (API_KEY : string) (req : Request) (type body : value).
Variables (apiUrl : string) (payload : value).
Hypothesis Hpost : req_method req = "POST".
Hypothesis Hkey : API_KEY <> EmptyString.
Hypothesis Hbody : destructure (req_body req) = Normal (type, body).
Hypothesis Hbuild : Superset.build API_KEY type body = Some (apiUrl, Normal payload).

Local Abbreviation call := (upstream_call apiUrl payload).

Lemma superset_handler_responds :
  Superset.handler up (Some API_KEY) req init = Superset.respond up type apiUrl payload init.
Proof. rewrite (superset_dispatch up API_KEY req type body Hpost Hkey Hbody), Hbuild. reflexivity. Qed.

(** The model text that parses is returned as it is, with status 200. *)
Lemma itinerary_parsed_is_returned (result jsonText parsedJson : value) (s : string) :
  type = VStr "itinerary" ->
  up call = Resolved {| ok := true; response_json := Normal result |} ->
  candidate_text result = Normal jsonText ->
  ToString jsonText = Normal s ->
  JSON_parse s = Normal parsedJson ->
  Superset.handler up (Some API_KEY) req init = (Normal tt, answered call 200 parsedJson []).
Proof.
  intros Htype Hup Htext Hs Hparse.
  rewrite superset_handler_responds, (superset_itinerary up type apiUrl payload result Hup Htype).
  rewrite Htext. cbn [cbind]. rewrite Hs. cbn [cbind]. rewrite Hparse. reflexivity.
Qed.

(** C8.  For type 'itinerary', whenever the model text is read and fails to
    parse, the client receives status 500 with the fixed body
    [{error: "The AI failed to generate a valid itinerary format. Please try
    again."}], the same for every text and every parse exception; both go
    to the console only. *)
Theorem itinerary_parse_failure_is_opaque (result jsonText : value) (parseError : JsError) :
  type = VStr "itinerary" ->
  up call = Resolved {| ok := true; response_json := Normal result |} ->
  candidate_text result = Normal jsonText ->
  (let* s := ToString jsonText in JSON_parse s) = Throw parseError ->
  Superset.handler up (Some API_KEY) req init =
  (Normal tt,
   answered call 500 malformed_itinerary
            [ [LogText "Failed to parse itinerary JSON from model:"; LogError parseError];
              [LogText "Original text from model:"; LogValue jsonText] ]).
Proof.
  intros Htype Hup Htext Hparse.
  rewrite superset_handler_responds, (superset_itinerary up type apiUrl payload result Hup Htype).
  rewrite Htext. cbn [cbind]. cbn [cbind] in Hparse. rewrite Hparse.
  rewrite (candidate_text_opt_agrees _ _ Htext). reflexivity.
Qed.

(** The slip behind C3: when [candidates] is absent, the strict read throws
    on [[0]], and so does the logging line of the [catch], which reads
    [result.candidates[0]] again; the outer [catch] answers with the
    engine's message. *)
Lemma itinerary_logging_escapes (result candidates : value) :
  type = VStr "itinerary" ->
  up call = Resolved {| ok := true; response_json := Normal result |} ->
  GetV result "candidates" = Normal candidates ->
  nullish candidates = true ->
  Superset.handler up (Some API_KEY) req init =
  (Normal tt,
   failed call (cannot_read candidates "0") [parse_failure_log (cannot_read candidates "0")]).
Proof.
  intros Htype Hup Hcand Hnull.
  rewrite superset_handler_responds, (superset_itinerary up type apiUrl payload result Hup Htype).
  unfold candidate_text, candidate_text_opt. rewrite Hcand. cbn [cbind].
  destruct candidates; try discriminate Hnull; reflexivity.
Qed.

(** Whatever makes the itinerary branch fail (a path that is absent, a
    text that does not parse), the client receives one response, with
    status 500, and the handler ends normally. *)
Lemma itinerary_failure_is_contained (result : value) (parseError : JsError) :
  type = VStr "itinerary" ->
  up call = Resolved {| ok := true; response_json := Normal result |} ->
  (let* jsonText := candidate_text result in
   let* s := ToString jsonText in JSON_parse s) = Throw parseError ->
  exists (b : value) (logs : list (list LogArg)),
    Superset.handler up (Some API_KEY) req init = (Normal tt, answered call 500 b logs).
Proof.
  intros Htype Hup Hfail.
  rewrite superset_handler_responds, (superset_itinerary up type apiUrl payload result Hup Htype).
  rewrite Hfail.
  destruct (candidate_text_opt result); unfold failed; do 2 eexists; reflexivity.
Qed.

(** C4, as the code has it.  For type 'generateImage': when [predictions] is
    a non-empty array whose first element is neither [null] nor missing,
    the answer is 200 with exactly
    [{base64Image: predictions[0].bytesBase64Encoded}]; when [predictions]
    is absent, [null] or an empty array (the response itself not being
    [null]), the answer is 500 with [{error: "No image was generated."}]. *)
Theorem generateImage_normalization (result : value) :
  type = VStr "generateImage" ->
  up call = Resolved {| ok := true; response_json := Normal result |} ->
  (forall (p0 : value) (rest : list value) (image : value),
      GetV result "predictions" = Normal (VArr (p0 :: rest)) ->
      GetV p0 "bytesBase64Encoded" = Normal image ->
      Superset.handler up (Some API_KEY) req init
      = (Normal tt, answered call 200 (VObj [("base64Image", image)]) [])) /\
  (forall predictions : value,
      GetV result "predictions" = Normal predictions ->
      nullish predictions = true \/ predictions = VArr [] ->
      Superset.handler up (Some API_KEY) req init
      = (Normal tt, failed call (Error "No image was generated.") [])).
Proof.
  intros Htype Hup.
  rewrite superset_handler_responds, (superset_image up type apiUrl payload result Hup Htype).
  split.
  - intros p0 rest image Hpred Himage.
    unfold Superset.has_predictions, Superset.first_image.
    rewrite Hpred. cbn. rewrite Himage. reflexivity.
  - intros predictions Hpred Hnone.
    unfold Superset.has_predictions. rewrite Hpred.
    destruct Hnone as [Hnull | ->].
    + destruct predictions; try discriminate Hnull; reflexivity.
    + reflexivity.
Qed.

(** C6, as the code has it.  Every response with a non-success status is
    answered 500 with [{error: message}] after that single call, and the
    failure is logged once.  The [message] is: the text of the upstream's
    [error.message] when the parsed error body carries a truthy one (a
    string as it is, anything else as [new Error] converts it); the generic
    ["Failed to fetch from API"] when the parsed error body carries no
    [error] or a falsy [message]; and otherwise the message of the
    exception met on the way: the parse failure when the error body is
    not JSON, the [TypeError] of reading [.error] when the error body is
    [null], the [TypeError] of a [message] that has no text. *)
Theorem upstream_failure_is_reported :
  (forall r : UpstreamResponse,
      up call = Resolved r ->
      ok r = false ->
      exists e : JsError,
        Superset.handler up (Some API_KEY) req init
        = (Normal tt,
           {| statusCode := 500;
              sent := [{| status := 500; json := VObj [("error", VStr (message e))] |}];
              fetched := [call];
              console := [[LogText "Error in serverless function:"; LogError e]] |})) /\
  (forall (errorData err m : value) (reason : string),
      up call = Resolved {| ok := false; response_json := Normal errorData |} ->
      GetV errorData "error" = Normal err ->
      GetOpt err "message" = Normal m ->
      ToBoolean m = true ->
      ToString m = Normal reason ->
      Superset.handler up (Some API_KEY) req init
      = (Normal tt, failed call (Error reason) [])) /\
  (forall errorData err m : value,
      up call = Resolved {| ok := false; response_json := Normal errorData |} ->
      GetV errorData "error" = Normal err ->
      GetOpt err "message" = Normal m ->
      ToBoolean m = false ->
      Superset.handler up (Some API_KEY) req init
      = (Normal tt, failed call (Error "Failed to fetch from API") [])) /\
  (forall e : JsError,
      up call = Resolved {| ok := false; response_json := Throw e |} ->
      Superset.handler up (Some API_KEY) req init = (Normal tt, failed call e [])) /\
  (forall (errorData : value) (e : JsError),
      up call = Resolved {| ok := false; response_json := Normal errorData |} ->
      GetV errorData "error" = Throw e ->
      Superset.handler up (Some API_KEY) req init = (Normal tt, failed call e [])) /\
  (forall (errorData err m : value) (e : JsError),
      up call = Resolved {| ok := false; response_json := Normal errorData |} ->
      GetV errorData "error" = Normal err ->
      GetOpt err "message" = Normal m ->
      ToBoolean m = true ->
      ToString m = Throw e ->
      Superset.handler up (Some API_KEY) req init = (Normal tt, failed call e [])).
Proof.
  rewrite superset_handler_responds.
  split; [ | split; [ | split; [ | split; [ | split]]]].
  - intros [okay [errorData | e]] Hup Hok; cbn [ok] in Hok; subst okay.
    + rewrite (superset_not_ok up type apiUrl payload errorData Hup).
      eexists. reflexivity.
    + rewrite (superset_body_unreadable up type apiUrl payload false e Hup).
      eexists. reflexivity.
  - intros errorData err m reason Hup Herr Hmsg Htrue Htext.
    rewrite (superset_not_ok up type apiUrl payload errorData Hup).
    unfold Superset.failure_reason. rewrite Herr. cbn [cbind]. rewrite Hmsg. cbn [cbind].
    rewrite Htrue, Htext. reflexivity.
  - intros errorData err m Hup Herr Hmsg Hfalse.
    rewrite (superset_not_ok up type apiUrl payload errorData Hup).
    unfold Superset.failure_reason. rewrite Herr. cbn [cbind]. rewrite Hmsg. cbn [cbind].
    rewrite Hfalse. reflexivity.
  - intros e Hup.
    apply (superset_body_unreadable up type apiUrl payload false e Hup).
  - intros errorData e Hup Herr.
    rewrite (superset_not_ok up type apiUrl payload errorData Hup).
    unfold Superset.failure_reason. rewrite Herr. reflexivity.
  - intros errorData err m e Hup Herr Hmsg Htrue Htext.
    rewrite (superset_not_ok up type apiUrl payload errorData Hup).
    unfold Superset.failure_reason. rewrite Herr. cbn [cbind]. rewrite Hmsg. cbn [cbind].
    rewrite Htrue, Htext. reflexivity.
Qed.

End Dispatched.

(** ** Concrete runs *)

Lemma itinerary_parse_failure_is_opaque_witness :
  candidate_text (model_says (VStr "not json")) = Normal (VStr "not json") /\
  sent (snd (@Superset.handler sample_engine
               (answers true (Normal (model_says (VStr "not json"))))
               (Some "secret") itinerary_request init))
  = [{| status := 500; json := malformed_itinerary |}].
Proof.
  split; [reflexivity | ].
  erewrite (@itinerary_parse_failure_is_opaque sample_engine
              (answers true (Normal (model_says (VStr "not json"))))
              "secret" itinerary_request (VStr "itinerary")
              (VObj [("data", sample_trip)]) _ _
              eq_refl (fun Hempty => ltac:(discriminate Hempty)) eq_refl eq_refl
              (model_says (VStr "not json")) (VStr "not json")
              (SyntaxError "Unexpected token in JSON: not json")
              eq_refl eq_refl eq_refl eq_refl).
  reflexivity.
Defined.

(** C3 at [{}], an upstream document without [candidates].  The strict read
    throws, the [catch] of the itinerary branch is entered, and its second
    logging line reads [result.candidates[0]] again, with no [?.] in front
    of [[0]]: the [TypeError] escapes to the outer [catch], and the client
    receives the engine's message instead of the malformed-itinerary body. *)
Theorem itinerary_without_candidates :
  candidate_text (VObj []) = Throw (cannot_read VUndefined "0") /\
  candidate_text_opt (VObj []) = Throw (cannot_read VUndefined "0") /\
  sent (snd (@Superset.handler sample_engine (answers true (Normal (VObj [])))
               (Some "secret") itinerary_request init))
  = [{| status := 500;
        json := error_body "Cannot read properties of undefined (reading '0')" |}] /\
  sent (snd (@Superset.handler sample_engine (answers true (Normal (VObj [])))
               (Some "secret") itinerary_request init))
  <> [{| status := 500; json := malformed_itinerary |}].
Proof.
  split; [reflexivity | split; [reflexivity | split; [reflexivity | ]]].
  vm_compute. intros Habs. discriminate Habs.
Qed.

(** The same slip when [content] is present without [parts]. *)
Example itinerary_without_parts :
  sent (snd (@Superset.handler sample_engine
               (answers true (Normal (VObj [("candidates",
                  VArr [VObj [("content", VObj [("role", VStr "model")])]])])))
               (Some "secret") itinerary_request init))
  = [{| status := 500;
        json := error_body "Cannot read properties of undefined (reading '0')" |}].
Proof. reflexivity. Qed.

(** An empty [candidates] array is tolerated by the logging line: the
    client receives the malformed-itinerary body. *)
Example itinerary_with_no_candidate :
  sent (snd (@Superset.handler sample_engine
               (answers true (Normal (VObj [("candidates", VArr [])])))
               (Some "secret") itinerary_request init))
  = [{| status := 500; json := malformed_itinerary |}].
Proof. reflexivity. Qed.

Lemma generateImage_normalization_witness :
  sent (snd (@Superset.handler sample_engine
               (answers true (Normal (VObj [("predictions",
                  VArr [VObj [("bytesBase64Encoded", VStr "QUJD")]])])))
               (Some "secret") image_request init))
  = [{| status := 200; json := VObj [("base64Image", VStr "QUJD")] |}].
Proof.
  erewrite (proj1 (@generateImage_normalization sample_engine
              (answers true (Normal (VObj [("predictions",
                  VArr [VObj [("bytesBase64Encoded", VStr "QUJD")]])])))
              "secret" image_request (VStr "generateImage")
              (VObj [("prompt", VStr "Eiffel Tower at dusk")]) _ _
              eq_refl (fun Hempty => ltac:(discriminate Hempty)) eq_refl eq_refl
              _ eq_refl eq_refl)
              (VObj [("bytesBase64Encoded", VStr "QUJD")]) [] (VStr "QUJD")
              eq_refl eq_refl).
  reflexivity.
Defined.

(** C4 as stated fails at [{predictions: [null]}]: the sequence is not
    empty, yet reading [bytesBase64Encoded] of [null] throws and the answer
    is 500.  It also fails at the document [null], which has no
    [predictions]: the answer is 500 with the engine's message. *)
Lemma generateImage_null_prediction :
  GetV (VObj [("predictions", VArr [VNull])]) "predictions" = Normal (VArr [VNull]) /\
  sent (snd (@Superset.handler sample_engine
               (answers true (Normal (VObj [("predictions", VArr [VNull])])))
               (Some "secret") image_request init))
  = [{| status := 500;
        json := error_body "Cannot read properties of null (reading 'bytesBase64Encoded')" |}] /\
  (forall image : value,
      sent (snd (@Superset.handler sample_engine
                   (answers true (Normal (VObj [("predictions", VArr [VNull])])))
                   (Some "secret") image_request init))
      <> [{| status := 200; json := VObj [("base64Image", image)] |}]) /\
  sent (snd (@Superset.handler sample_engine (answers true (Normal VNull))
               (Some "secret") image_request init))
  = [{| status := 500;
        json := error_body "Cannot read properties of null (reading 'predictions')" |}].
Proof.
  split; [reflexivity | split; [reflexivity | split; [ | reflexivity]]].
  intros image Habs. vm_compute in Habs. discriminate Habs.
Qed.

Lemma upstream_failure_is_reported_witness :
  sent (snd (@Superset.handler sample_engine
               (answers false (Normal (VObj [("error",
                  VObj [("code", VNum 429); ("message", VStr "Quota exceeded")])])))
               (Some "secret") currency_request init))
  = [{| status := 500; json := error_body "Quota exceeded" |}] /\
  sent (snd (@Superset.handler sample_engine
               (answers false (Normal (VObj [("error", VObj [("message", VNum 429)])])))
               (Some "secret") currency_request init))
  = [{| status := 500; json := error_body "429" |}] /\
  exists e : JsError,
    sent (snd (@Superset.handler sample_engine (answers false (Normal VNull))
                 (Some "secret") currency_request init))
    = [{| status := 500; json := error_body (message e) |}].
Proof.
  split; [ | split].
  - erewrite (proj1 (proj2 (@upstream_failure_is_reported sample_engine
                (answers false (Normal (VObj [("error",
                    VObj [("code", VNum 429); ("message", VStr "Quota exceeded")])])))
                "secret" currency_request (VStr "currency")
                (VObj [("amount", VNum 100); ("from", VStr "USD"); ("to", VStr "EUR")]) _ _
                eq_refl (fun Hempty => ltac:(discriminate Hempty)) eq_refl eq_refl))
                _ (VObj [("code", VNum 429); ("message", VStr "Quota exceeded")])
                (VStr "Quota exceeded") "Quota exceeded"
                eq_refl eq_refl eq_refl eq_refl eq_refl).
    reflexivity.
  - erewrite (proj1 (proj2 (@upstream_failure_is_reported sample_engine
                (answers false (Normal (VObj [("error", VObj [("message", VNum 429)])])))
                "secret" currency_request (VStr "currency")
                (VObj [("amount", VNum 100); ("from", VStr "USD"); ("to", VStr "EUR")]) _ _
                eq_refl (fun Hempty => ltac:(discriminate Hempty)) eq_refl eq_refl))
                _ (VObj [("message", VNum 429)]) (VNum 429) "429"
                eq_refl eq_refl eq_refl eq_refl eq_refl).
    reflexivity.
  - destruct (proj1 (@upstream_failure_is_reported sample_engine
                (answers false (Normal VNull))
                "secret" currency_request (VStr "currency")
                (VObj [("amount", VNum 100); ("from", VStr "USD"); ("to", VStr "EUR")]) _ _
                eq_refl (fun Hempty => ltac:(discriminate Hempty)) eq_refl eq_refl)
                {| ok := false; response_json := Normal VNull |} eq_refl eq_refl)
      as [e He].
    exists e. rewrite He. reflexivity.
Defined.

(** An empty [error.message] is falsy: the generic message is reported. *)
Example upstream_failure_empty_message :
  sent (snd (@Superset.handler sample_engine
               (answers false (Normal (VObj [("error", VObj [("message", VStr EmptyString)])])))
               (Some "secret") currency_request init))
  = [{| status := 500; json := error_body "Failed to fetch from API" |}].
Proof. reflexivity. Qed.

(** C6 as stated fails when the error body is not JSON: the client is told
    the parse failure, not the generic message; and when the error body is
    the document [null], it is told the engine's [TypeError]. *)
Lemma upstream_failure_unparseable_body :
  sent (snd (@Superset.handler sample_engine
               (answers false (Throw (SyntaxError "Unexpected token < in JSON at position 0")))
               (Some "secret") currency_request init))
  = [{| status := 500; json := error_body "Unexpected token < in JSON at position 0" |}] /\
  sent (snd (@Superset.handler sample_engine
               (answers false (Throw (SyntaxError "Unexpected token < in JSON at position 0")))
               (Some "secret") currency_request init))
  <> [{| status := 500; json := error_body "Failed to fetch from API" |}] /\
  sent (snd (@Superset.handler sample_engine (answers false (Normal VNull))
               (Some "secret") currency_request init))
  = [{| status := 500;
        json := error_body "Cannot read properties of null (reading 'error')" |}].
Proof.
  split; [reflexivity | split; [ | reflexivity]].
  intros Habs. vm_compute in Habs. discriminate Habs.
Qed.

(** ** One call, one response *)

(** Whatever the upstream does, the [try] block ends normally, after one
    call and one response. *)
Lemma superset_respond_once `{Engine} (up : Upstream) (type : value) (apiUrl : string)
      (payload : value) :
  exists (code : nat) (b : value) (logs : list (list LogArg)),
    Superset.respond up type apiUrl payload init
    = (Normal tt, answered (upstream_call apiUrl payload) code b logs).
Proof.
  destruct (up (upstream_call apiUrl payload)) as [e | [okay [v | e]]] eqn:Hup.
  - rewrite (superset_fetch_rejected up type apiUrl payload e Hup).
    unfold failed. repeat eexists.
  - destruct okay.
    + destruct (strict_eq type "generateImage") eqn:Himg.
      * rewrite (superset_image up type apiUrl payload v Hup (strict_eq_true _ _ Himg)).
        destruct (Superset.has_predictions v) as [[ | ] | e1];
          [destruct (Superset.first_image v) | | ]; unfold failed; repeat eexists.
      * destruct (strict_eq type "itinerary") eqn:Hit.
        -- rewrite (superset_itinerary up type apiUrl payload v Hup (strict_eq_true _ _ Hit)).
           destruct (let* jsonText := candidate_text v in
                     let* s := ToString jsonText in JSON_parse s);
             [ | destruct (candidate_text_opt v)]; unfold failed; repeat eexists.
        -- rewrite (superset_passthrough up type apiUrl payload v Hup Himg Hit). repeat eexists.
    + rewrite (superset_not_ok up type apiUrl payload v Hup). unfold failed. repeat eexists.
  - rewrite (superset_body_unreadable up type apiUrl payload okay e Hup).
    unfold failed. repeat eexists.
Qed.

(** C10, as the code has it.  When the request body is an object and the
    payload of its case is built without an exception, the handler ends
    normally and [res.json] has been called exactly once: on the 405, 500
    and 400 guards, and on every path through the [try] block. *)
Theorem handler_responds_once `{Engine} (up : Upstream) (key : option string)
        (req : Request) (fields : list (string * value)) :
  req_body req = VObj fields ->
  (forall (API_KEY apiUrl : string) (e : JsError),
      key = Some API_KEY ->
      Superset.build API_KEY (lookup "type" fields) (VObj (without "type" fields))
      <> Some (apiUrl, Throw e)) ->
  exists (w : World) (r : Response),
    Superset.handler up key req init = (Normal tt, w) /\ sent w = [r].
Proof.
  intros Hobj Hbuilt.
  destruct (String.eqb_spec (req_method req) "POST") as [Hpost | Hother].
  - destruct (key_missing key) eqn:Hmiss.
    + rewrite (superset_no_key up key req Hpost Hmiss).
      do 2 eexists. split; reflexivity.
    + destruct key as [API_KEY | ]; [ | discriminate Hmiss].
      assert (Hne : API_KEY <> EmptyString) by (intros ->; discriminate Hmiss).
      assert (Hbody : destructure (req_body req)
                      = Normal (lookup "type" fields, VObj (without "type" fields)))
        by (rewrite Hobj; reflexivity).
      rewrite (superset_dispatch up API_KEY req _ _ Hpost Hne Hbody).
      destruct (Superset.build API_KEY (lookup "type" fields) (VObj (without "type" fields)))
        as [[apiUrl [payload | e]] | ] eqn:Hb.
      * destruct (superset_respond_once up (lookup "type" fields) apiUrl payload)
          as (code & b & logs & ->).
        do 2 eexists. split; reflexivity.
      * exfalso. exact (Hbuilt API_KEY apiUrl e eq_refl Hb).
      * do 2 eexists. split; reflexivity.
  - unfold Superset.handler. apply String.eqb_neq in Hother. rewrite Hother.
    do 2 eexists. split; reflexivity.
Qed.

Lemma handler_responds_once_witness :
  exists (w : World) (r : Response),
    @Superset.handler sample_engine (answers true (Normal (VObj []))) (Some "secret")
                      itinerary_request init = (Normal tt, w) /\ sent w = [r].
Proof.
  apply (@handler_responds_once sample_engine (answers true (Normal (VObj [])))
           (Some "secret") itinerary_request
           [("type", VStr "itinerary"); ("data", sample_trip)] eq_refl).
  intros API_KEY apiUrl e Hk Hb. injection Hk as <-. discriminate Hb.
Defined.

(** C10 as stated fails: the body [{type: 'itinerary'}] is an object, yet
    reading [data.cities] throws in the switch, outside the [try] block:
    the handler ends with that exception and has sent nothing. *)
Lemma handler_without_data_never_responds :
  @Superset.handler sample_engine (answers true (Normal (VObj []))) (Some "secret")
                    (post (VObj [("type", VStr "itinerary")])) init
  = (Throw (TypeError "Cannot read properties of undefined (reading 'cities')"), init) /\
  sent init = [].
Proof. split; reflexivity. Qed.

(** ** The payload builder *)

Lemma cbind_normal {A B} (c : Completion A) (k : A -> Completion B) (b : B) :
  cbind c k = Normal b -> exists a : A, c = Normal a /\ k a = Normal b.
Proof. destruct c as [a | e]; simpl; intros Hk; [eauto | discriminate Hk]. Qed.

(** Peel the [let*] steps of a payload that was built. *)
Ltac built Hb :=
  repeat (let a := fresh "a" in
          let Ha := fresh "Ha" in
          apply cbind_normal in Hb; destruct Hb as (a & Ha & Hb));
  injection Hb as <-.

(** The endpoint each case resolves, and the shape of what it builds. *)
Lemma superset_build_shape `{Engine} (k : RequestKind) (API_KEY : string) (body : value) :
  exists (apiUrl : string) (building : Completion value),
    Superset.build API_KEY (VStr (kind_name k)) body = Some (apiUrl, building) /\
    contains (if text_kind k then "generateContent" else "predict") apiUrl /\
    forall payload : value,
      building = Normal payload ->
      if text_kind k then text_shape payload else image_shape payload.
Proof.
  destruct k; cbn [kind_name text_kind]; unfold Superset.build;
    cbn [strict_eq String.eqb Ascii.eqb Bool.eqb];
    do 2 eexists; (split; [reflexivity | split]).
  all: try (exists "https://generativelanguage.googleapis.com/v1beta/models/gemini-2.5-flash-preview-09-2025:",
                   ("?key=" ++ API_KEY); reflexivity).
  all: try (exists "https://generativelanguage.googleapis.com/v1beta/models/imagen-4.0-generate-001:",
                   ("?key=" ++ API_KEY); reflexivity).
  all: intros payload Hb; built Hb.
  all: try (do 2 eexists; split; [reflexivity | ];
            repeat (first [apply Forall_nil | apply Forall_cons]); cbn [fst]; auto).
  eexists. reflexivity.
Qed.

(** The payload is built on a well-formed body of each kind. *)
Lemma build_succeeds_on_samples (k : RequestKind) :
  exists (apiUrl : string) (payload : value),
    @Superset.build sample_engine "secret" (VStr (kind_name k)) (sample_body k)
    = Some (apiUrl, Normal payload).
Proof. destruct k; do 2 eexists; reflexivity. Qed.

(** The calls made by a run never depend on what the upstream answers. *)
Lemma superset_fetched `{Engine} (up : Upstream) (key : option string) (req : Request) :
  fetched (snd (Superset.handler up key req init)) =
  if negb (String.eqb (req_method req) "POST") then []
  else if key_missing key then []
  else match destructure (req_body req) with
       | Normal (type, body) =>
           match Superset.build (match key with Some k => k | None => EmptyString end)
                                type body with
           | Some (apiUrl, Normal payload) => [upstream_call apiUrl payload]
           | _ => []
           end
       | Throw _ => []
       end.
Proof.
  destruct (String.eqb_spec (req_method req) "POST") as [Hpost | Hother]; cbn [negb].
  - destruct (key_missing key) eqn:Hmiss.
    + rewrite (superset_no_key up key req Hpost Hmiss). reflexivity.
    + destruct key as [API_KEY | ]; [ | discriminate Hmiss].
      assert (Hne : API_KEY <> EmptyString) by (intros ->; discriminate Hmiss).
      destruct (destructure (req_body req)) as [[type body] | e] eqn:Hbody.
      * rewrite (superset_dispatch up API_KEY req type body Hpost Hne Hbody).
        destruct (Superset.build API_KEY type body) as [[apiUrl [payload | e]] | ];
          try reflexivity.
        destruct (superset_respond_once up type apiUrl payload) as (code & b & logs & ->).
        reflexivity.
      * unfold Superset.handler. rewrite Hpost, Hmiss.
        cbn [String.eqb Ascii.eqb Bool.eqb negb].
        unfold bind at 1, lift at 1. rewrite Hbody. reflexivity.
  - unfold Superset.handler. apply String.eqb_neq in Hother. rewrite Hother. reflexivity.
Qed.

(** X27.  The upstream never feeds back into what is sent to it: two runs
    of the handler on the same request with the same key issue the same
    upstream calls, whatever the upstream answered in either run; and when
    the payload of a request is built, a run issues exactly the one call
    the switch gives: that endpoint URL, method POST, JSON content type,
    that payload. *)
Theorem calls_ignore_the_upstream `{Engine} (up1 up2 : Upstream) (key : option string)
        (req : Request) :
  fetched (snd (Superset.handler up1 key req init))
  = fetched (snd (Superset.handler up2 key req init)) /\
  forall (API_KEY : string) (type body : value) (apiUrl : string) (payload : value),
    req_method req = "POST" ->
    key = Some API_KEY ->
    API_KEY <> EmptyString ->
    destructure (req_body req) = Normal (type, body) ->
    Superset.build API_KEY type body = Some (apiUrl, Normal payload) ->
    fetched (snd (Superset.handler up1 key req init))
    = [{| endpointURL := apiUrl;
          method := "POST";
          headers := [("Content-Type", "application/json")];
          bodyPayload := payload |}].
Proof.
  split.
  - rewrite (superset_fetched up1), (superset_fetched up2). reflexivity.
  - intros API_KEY type body apiUrl payload Hpost -> Hne Hbody Hbuild.
    rewrite (superset_fetched up1), Hpost, (key_present _ Hne), Hbody, Hbuild.
    reflexivity.
Qed.

Lemma calls_ignore_the_upstream_witness :
  fetched (snd (@Superset.handler sample_engine (answers true (Normal (VObj [])))
                  (Some "secret") currency_request init))
  = fetched (snd (@Superset.handler sample_engine (always (Rejected (Error "offline")))
                  (Some "secret") currency_request init)) /\
  map endpointURL
      (fetched (snd (@Superset.handler sample_engine (answers true (Normal (VObj [])))
                       (Some "secret") currency_request init)))
  = ["https://generativelanguage.googleapis.com/v1beta/models/gemini-2.5-flash-preview-09-2025:generateContent?key=secret"].
Proof.
  split.
  - apply (@calls_ignore_the_upstream sample_engine).
  - erewrite (proj2 (@calls_ignore_the_upstream sample_engine
                       (answers true (Normal (VObj [])))
                       (always (Rejected (Error "offline")))
                       (Some "secret") currency_request)
                    "secret" (VStr "currency")
                    (VObj [("amount", VNum 100); ("from", VStr "USD"); ("to", VStr "EUR")])
                    _ _ eq_refl eq_refl (fun Hempty => ltac:(discriminate Hempty))
                    eq_refl eq_refl).
    reflexivity.
Defined.

(** ** The two versions of the dispatcher *)

Lemma superseded_passthrough `{Engine} (up : Upstream) (type : value) (apiUrl : string)
      (payload result : value) :
  up (upstream_call apiUrl payload) = Resolved {| ok := true; response_json := Normal result |} ->
  strict_eq type "itinerary" = false ->
  Superseded.respond up type apiUrl payload init
  = (Normal tt, answered (upstream_call apiUrl payload) 200 result []).
Proof. intros Hup Hit. enter_try Hup. rewrite Hit. reflexivity. Qed.



(** * The rest of the dispatcher *)

(** ** The [try] block of the superseded version *)

Section SupersededOutcomes.
Context {E : Engine}.
Variables (up : Upstream) (type : value) (apiUrl : string) (payload : value).

Local Abbreviation call := (upstream_call apiUrl payload).

Lemma superseded_fetch_rejected (e : JsError) :
  up call = Rejected e ->
  Superseded.respond up type apiUrl payload init = (Normal tt, failed call e []).
Proof. intros Hup. enter_try Hup. reflexivity. Qed.

Lemma superseded_body_unreadable (okay : bool) (e : JsError) :
  up call = Resolved {| ok := okay; response_json := Throw e |} ->
  Superseded.respond up type apiUrl payload init = (Normal tt, failed call e []).
Proof. intros Hup. enter_try Hup. destruct okay; reflexivity. Qed.

Lemma superseded_not_ok (errorData : value) :
  up call = Resolved {| ok := false; response_json := Normal errorData |} ->
  Superseded.respond up type apiUrl payload init =
  (Normal tt,
   failed call (match Superseded.failure_reason errorData with
                | Normal reason => Error reason
                | Throw e => e
                end) []).
Proof.
  intros Hup. enter_try Hup.
  destruct (Superseded.failure_reason errorData); reflexivity.
Qed.

Lemma superseded_itinerary (result : value) :
  up call = Resolved {| ok := true; response_json := Normal result |} ->
  type = VStr "itinerary" ->
  Superseded.respond up type apiUrl payload init =
  (Normal tt,
   match (let* jsonText := candidate_text result in
          let* s := ToString jsonText in JSON_parse s) with
   | Normal parsedJson => answered call 200 parsedJson []
   | Throw parseError =>
       match candidate_text_opt result with
       | Normal original =>
           answered call 500 malformed_itinerary
                    [parse_failure_log parseError;
                     [LogText "Original text from model:"; LogValue original]]
       | Throw e => failed call e [parse_failure_log parseError]
       end
   end).
Proof.
  intros Hup ->. enter_try Hup. cbn [strict_eq String.eqb Ascii.eqb Bool.eqb].
  destruct (candidate_text result) as [jsonText | e1]; cbn [cbind];
    [destruct (ToString jsonText) as [s | e2]; cbn [cbind];
     [destruct (JSON_parse s) as [parsed | e3] | ] | ];
    try reflexivity;
    unfold console_error, res_status, res_json; cbn;
    destruct (candidate_text_opt result); reflexivity.
Qed.

End SupersededOutcomes.

Lemma superset_respond_settles `{Engine} (up : Upstream) (type : value) (apiUrl : string)
      (payload : value) :
  exists w : World,
    Superset.respond up type apiUrl payload init = (Normal tt, w) /\
    settled up (upstream_call apiUrl payload) w.
Proof.
  unfold settled.
  destruct (up (upstream_call apiUrl payload)) as [e | [okay [v | e]]] eqn:Hup.
  - rewrite (superset_fetch_rejected up type apiUrl payload e Hup).
    eexists; split; [reflexivity | left; unfold failed; eauto].
  - destruct okay.
    + destruct (strict_eq type "generateImage") eqn:Himg.
      * rewrite (superset_image up type apiUrl payload v Hup (strict_eq_true _ _ Himg)).
        destruct (Superset.has_predictions v) as [[ | ] | e1];
          [destruct (Superset.first_image v) | | ];
          (eexists; split; [reflexivity | ]);
          first [ right; do 3 eexists; split; reflexivity
                | left; unfold failed; do 2 eexists; reflexivity ].
      * destruct (strict_eq type "itinerary") eqn:Hit.
        -- rewrite (superset_itinerary up type apiUrl payload v Hup (strict_eq_true _ _ Hit)).
           destruct (let* jsonText := candidate_text v in
                     let* s := ToString jsonText in JSON_parse s);
             [ | destruct (candidate_text_opt v)];
             (eexists; split; [reflexivity | ]);
             first [ right; do 3 eexists; split; reflexivity
                   | left; unfold failed, malformed_itinerary; do 2 eexists; reflexivity ].
        -- rewrite (superset_passthrough up type apiUrl payload v Hup Himg Hit).
           eexists; split; [reflexivity | right; do 3 eexists; split; reflexivity].
    + rewrite (superset_not_ok up type apiUrl payload v Hup).
      eexists; split; [reflexivity | left; unfold failed; eauto].
  - rewrite (superset_body_unreadable up type apiUrl payload okay e Hup).
    eexists; split; [reflexivity | left; unfold failed; eauto].
Qed.

Lemma superseded_respond_settles `{Engine} (up : Upstream) (type : value) (apiUrl : string)
      (payload : value) :
  exists w : World,
    Superseded.respond up type apiUrl payload init = (Normal tt, w) /\
    settled up (upstream_call apiUrl payload) w.
Proof.
  unfold settled.
  destruct (up (upstream_call apiUrl payload)) as [e | [okay [v | e]]] eqn:Hup.
  - rewrite (superseded_fetch_rejected up type apiUrl payload e Hup).
    eexists; split; [reflexivity | left; unfold failed; eauto].
  - destruct okay.
    + destruct (strict_eq type "itinerary") eqn:Hit.
      * rewrite (superseded_itinerary up type apiUrl payload v Hup (strict_eq_true _ _ Hit)).
        destruct (let* jsonText := candidate_text v in
                  let* s := ToString jsonText in JSON_parse s);
          [ | destruct (candidate_text_opt v)];
          (eexists; split; [reflexivity | ]);
          first [ right; do 3 eexists; split; reflexivity
                | left; unfold failed, malformed_itinerary; do 2 eexists; reflexivity ].
      * rewrite (superseded_passthrough up type apiUrl payload v Hup Hit).
        eexists; split; [reflexivity | right; do 3 eexists; split; reflexivity].
    + rewrite (superseded_not_ok up type apiUrl payload v Hup).
      eexists; split; [reflexivity | left; unfold failed; eauto].
  - rewrite (superseded_body_unreadable up type apiUrl payload okay e Hup).
    eexists; split; [reflexivity | left; unfold failed; eauto].
Qed.

(** ** Guards and unhandled exceptions, in both versions *)

Lemma superseded_no_key `{Engine} (up : Upstream) (key : option string) (req : Request) :
  req_method req = "POST" ->
  key_missing key = true ->
  Superseded.handler up key req init = (Normal tt, unconfigured_world).
Proof.
  intros Hpost Hmiss. unfold Superseded.handler.
  rewrite Hpost, Hmiss. reflexivity.
Qed.

Lemma handlers_not_post `{Engine} (up : Upstream) (key : option string) (req : Request) :
  req_method req <> "POST" ->
  Superset.handler up key req init = (Normal tt, method_not_allowed_world) /\
  Superseded.handler up key req init = (Normal tt, method_not_allowed_world).
Proof.
  intros Hother. unfold Superset.handler, Superseded.handler.
  apply String.eqb_neq in Hother. rewrite Hother. split; reflexivity.
Qed.

Lemma handlers_body_throws `{Engine} (up : Upstream) (API_KEY : string) (req : Request)
      (e : JsError) :
  req_method req = "POST" ->
  API_KEY <> EmptyString ->
  destructure (req_body req) = Throw e ->
  Superset.handler up (Some API_KEY) req init = (Throw e, init) /\
  Superseded.handler up (Some API_KEY) req init = (Throw e, init).
Proof.
  intros Hpost Hkey Hbody. unfold Superset.handler, Superseded.handler.
  rewrite Hpost, (key_present _ Hkey). cbn [String.eqb Ascii.eqb Bool.eqb negb].
  unfold bind, lift. rewrite Hbody. split; reflexivity.
Qed.

(** X1.  A request whose method is not POST is answered 405 with
    [{error: 'Method Not Allowed'}] by both versions, before the API key
    and the body are looked at and with no upstream call. *)
Theorem non_post_is_405 `{Engine} (up : Upstream) (key : option string) (req : Request) :
  req_method req <> "POST" ->
  Superset.handler up key req init
  = (Normal tt,
     {| statusCode := 405;
        sent := [{| status := 405; json := VObj [("error", VStr "Method Not Allowed")] |}];
        fetched := [];
        console := [] |}) /\
  Superseded.handler up key req init
  = (Normal tt,
     {| statusCode := 405;
        sent := [{| status := 405; json := VObj [("error", VStr "Method Not Allowed")] |}];
        fetched := [];
        console := [] |}).
Proof. intros Hother. exact (handlers_not_post up key req Hother). Qed.

Lemma non_post_is_405_witness :
  @Superset.handler sample_engine (always (Rejected (Error "offline"))) None
                    {| req_method := "GET"; req_body := VUndefined |} init
  = (Normal tt, method_not_allowed_world).
Proof.
  apply (@non_post_is_405 sample_engine (always (Rejected (Error "offline"))) None
           {| req_method := "GET"; req_body := VUndefined |}).
  intros Habs. discriminate Habs.
Defined.

(** X2.  A POST that carries no body ([req.body] is [undefined] or [null])
    while the key is configured makes [const { type, ...body } = req.body]
    throw a [TypeError] outside the [try] block: in both versions the
    handler ends with that exception, having sent no response and made no
    upstream call. *)
Theorem missing_body_is_unhandled `{Engine} (up : Upstream) (API_KEY : string)
        (req : Request) :
  req_method req = "POST" ->
  API_KEY <> EmptyString ->
  nullish (req_body req) = true ->
  exists m : string,
    Superset.handler up (Some API_KEY) req init = (Throw (TypeError m), init) /\
    Superseded.handler up (Some API_KEY) req init = (Throw (TypeError m), init).
Proof.
  intros Hpost Hkey Hnull.
  destruct (req_body req) eqn:Hb; try discriminate Hnull;
    eexists; apply handlers_body_throws; try assumption; rewrite Hb; reflexivity.
Qed.

Lemma missing_body_is_unhandled_witness :
  exists m : string,
    @Superset.handler sample_engine (answers true (Normal VNull)) (Some "secret")
                      (post VUndefined) init = (Throw (TypeError m), init) /\
    @Superseded.handler sample_engine (answers true (Normal VNull)) (Some "secret")
                        (post VUndefined) init = (Throw (TypeError m), init).
Proof.
  apply (@missing_body_is_unhandled sample_engine (answers true (Normal VNull)) "secret"
           (post VUndefined) eq_refl (fun Hempty => ltac:(discriminate Hempty)) eq_refl).
Defined.

(** X3.  A POST whose body is a string, a number, a boolean or an array has
    no [type]: with the key configured, both versions answer 400
    [{error: 'Invalid API request type'}] and make no upstream call. *)
Theorem non_object_body_is_400 `{Engine} (up : Upstream) (API_KEY : string)
        (req : Request) :
  req_method req = "POST" ->
  API_KEY <> EmptyString ->
  nullish (req_body req) = false ->
  (forall fields : list (string * value), req_body req <> VObj fields) ->
  Superset.handler up (Some API_KEY) req init = (Normal tt, rejected_world) /\
  Superseded.handler up (Some API_KEY) req init = (Normal tt, rejected_world).
Proof.
  intros Hpost Hkey Hnull Hnot.
  assert (Hbody : exists body, destructure (req_body req) = Normal (VUndefined, body)).
  { destruct (req_body req) as [ | | b | q | s | items | fields ];
      try discriminate Hnull; try (eexists; reflexivity).
    exfalso. exact (Hnot fields eq_refl). }
  destruct Hbody as [body Hbody].
  rewrite (superset_dispatch up API_KEY req _ _ Hpost Hkey Hbody),
          (superseded_dispatch up API_KEY req _ _ Hpost Hkey Hbody).
  split; reflexivity.
Qed.

Lemma non_object_body_is_400_witness :
  @Superset.handler sample_engine (answers true (Normal VNull)) (Some "secret")
                    (post (VStr "type=itinerary")) init
  = (Normal tt, rejected_world).
Proof.
  apply (@non_object_body_is_400 sample_engine (answers true (Normal VNull)) "secret"
           (post (VStr "type=itinerary")) eq_refl
           (fun Hempty => ltac:(discriminate Hempty)) eq_refl).
  intros fields Habs. discriminate Habs.
Defined.

(** ** Every way a run can end *)

Lemma superset_handler_ending `{Engine} (up : Upstream) (key : option string)
      (req : Request) :
  ending up (Superset.handler up key req init).
Proof.
  destruct (String.eqb_spec (req_method req) "POST") as [Hpost | Hother].
  - destruct (key_missing key) eqn:Hmiss.
    + rewrite (superset_no_key up key req Hpost Hmiss). constructor.
    + destruct key as [API_KEY | ]; [ | discriminate Hmiss].
      assert (Hne : API_KEY <> EmptyString) by (intros ->; discriminate Hmiss).
      destruct (destructure (req_body req)) as [[type body] | e] eqn:Hbody.
      * rewrite (superset_dispatch up API_KEY req type body Hpost Hne Hbody).
        destruct (Superset.build API_KEY type body) as [[apiUrl [payload | e]] | ].
        -- destruct (superset_respond_settles up type apiUrl payload) as (w & -> & Hw).
           exact (ends_settled up _ w Hw).
        -- constructor.
        -- apply ends_400.
      * rewrite (proj1 (handlers_body_throws up API_KEY req e Hpost Hne Hbody)).
        constructor.
  - rewrite (proj1 (handlers_not_post up key req Hother)). constructor.
Qed.

Lemma superseded_handler_ending `{Engine} (up : Upstream) (key : option string)
      (req : Request) :
  ending up (Superseded.handler up key req init).
Proof.
  destruct (String.eqb_spec (req_method req) "POST") as [Hpost | Hother].
  - destruct (key_missing key) eqn:Hmiss.
    + rewrite (superseded_no_key up key req Hpost Hmiss). constructor.
    + destruct key as [API_KEY | ]; [ | discriminate Hmiss].
      assert (Hne : API_KEY <> EmptyString) by (intros ->; discriminate Hmiss).
      destruct (destructure (req_body req)) as [[type body] | e] eqn:Hbody.
      * rewrite (superseded_dispatch up API_KEY req type body Hpost Hne Hbody).
        destruct (Superseded.build type body) as [[payload | e] | ].
        -- destruct (superseded_respond_settles up type
                       (Superseded.API_URL_BASE ++ "?key=" ++ API_KEY) payload)
             as (w & -> & Hw).
           exact (ends_settled up _ w Hw).
        -- constructor.
        -- apply ends_400.
      * rewrite (proj2 (handlers_body_throws up API_KEY req e Hpost Hne Hbody)).
        constructor.
  - rewrite (proj2 (handlers_not_post up key req Hother)). constructor.
Qed.

Lemma ending_well_formed (up : Upstream) (run : Completion unit * World) (r : Response) :
  ending up run -> In r (sent (snd run)) -> well_formed_response r.
Proof.
  intros Hend Hin. unfold well_formed_response.
  destruct Hend as [ | | | e | call w Hw]; cbn in Hin.
  - destruct Hin as [<- | []]. right. split; [auto | eexists; reflexivity].
  - destruct Hin as [<- | []]. right. split; [auto | eexists; reflexivity].
  - destruct Hin as [<- | []]. right. split; [auto | eexists; reflexivity].
  - destruct Hin.
  - destruct Hw as [(m & logs & ->) | (b & result & logs & -> & _)]; cbn in Hin;
      destruct Hin as [<- | []].
    + right. split; [auto | eexists; reflexivity].
    + left. reflexivity.
Qed.

Lemma ending_success (up : Upstream) (run : Completion unit * World) (r : Response) :
  ending up run -> In r (sent (snd run)) -> status r = 200%nat ->
  exists (call : UpstreamCallSpec) (result : value),
    fetched (snd run) = [call] /\
    up call = Resolved {| ok := true; response_json := Normal result |}.
Proof.
  intros Hend Hin H200.
  destruct Hend as [ | | | e | call w Hw]; cbn in Hin.
  - destruct Hin as [<- | []]. discriminate H200.
  - destruct Hin as [<- | []]. discriminate H200.
  - destruct Hin as [<- | []]. discriminate H200.
  - destruct Hin.
  - destruct Hw as [(m & logs & ->) | (b & result & logs & -> & Hup)]; cbn in Hin;
      destruct Hin as [<- | []].
    + discriminate H200.
    + exists call, result. split; [reflexivity | exact Hup].
Qed.

(** X4.  Every response either version writes has status 200, 400, 405 or
    500, and every response whose status is not 200 has a body of the form
    [{error: <string>}]: whatever the request, the key and the upstream. *)
Theorem responses_are_well_formed `{Engine} (up : Upstream) (key : option string)
        (req : Request) (r : Response) :
  (In r (sent (snd (Superset.handler up key req init))) -> well_formed_response r) /\
  (In r (sent (snd (Superseded.handler up key req init))) -> well_formed_response r).
Proof.
  split; intros Hin.
  - exact (ending_well_formed up _ r (superset_handler_ending up key req) Hin).
  - exact (ending_well_formed up _ r (superseded_handler_ending up key req) Hin).
Qed.

(** X5.  Status 200 is written only after success upstream: when a run of
    either version has sent a response with status 200, it has made exactly
    one upstream call and that call was answered with [response.ok] and a
    body that parsed as JSON. *)
Theorem success_needs_upstream_success `{Engine} (up : Upstream) (key : option string)
        (req : Request) (r : Response) :
  status r = 200%nat ->
  (In r (sent (snd (Superset.handler up key req init))) ->
   exists (call : UpstreamCallSpec) (result : value),
     fetched (snd (Superset.handler up key req init)) = [call] /\
     up call = Resolved {| ok := true; response_json := Normal result |}) /\
  (In r (sent (snd (Superseded.handler up key req init))) ->
   exists (call : UpstreamCallSpec) (result : value),
     fetched (snd (Superseded.handler up key req init)) = [call] /\
     up call = Resolved {| ok := true; response_json := Normal result |}).
Proof.
  intros H200. split; intros Hin.
  - exact (ending_success up _ r (superset_handler_ending up key req) Hin H200).
  - exact (ending_success up _ r (superseded_handler_ending up key req) Hin H200).
Qed.

Lemma success_needs_upstream_success_witness :
  exists (call : UpstreamCallSpec) (result : value),
    fetched (snd (@Superset.handler sample_engine
                    (answers true (Normal (VObj [("rate", VNum 92)])))
                    (Some "secret") currency_request init)) = [call] /\
    answers true (Normal (VObj [("rate", VNum 92)])) call
    = Resolved {| ok := true; response_json := Normal result |}.
Proof.
  apply (proj1 (@success_needs_upstream_success sample_engine
                  (answers true (Normal (VObj [("rate", VNum 92)])))
                  (Some "secret") currency_request
                  {| status := 200; json := VObj [("rate", VNum 92)] |} eq_refl)).
  left. reflexivity.
Defined.

(** X6.  The superseded version answers exactly once, like the
    authoritative one: when the request body is an object and the payload
    of its case is built without an exception, the handler ends normally
    with exactly one response sent and at most one upstream call made. *)
Theorem superseded_responds_once `{Engine} (up : Upstream) (key : option string)
        (req : Request) (fields : list (string * value)) :
  req_body req = VObj fields ->
  (forall e : JsError,
      Superseded.build (lookup "type" fields) (VObj (without "type" fields))
      <> Some (Throw e)) ->
  exists (w : World) (r : Response),
    Superseded.handler up key req init = (Normal tt, w) /\
    sent w = [r] /\
    (length (fetched w) <= 1)%nat.
Proof.
  intros Hobj Hbuilt.
  destruct (String.eqb_spec (req_method req) "POST") as [Hpost | Hother].
  - destruct (key_missing key) eqn:Hmiss.
    + rewrite (superseded_no_key up key req Hpost Hmiss).
      do 2 eexists. split; [reflexivity | split; [reflexivity | cbn; auto]].
    + destruct key as [API_KEY | ]; [ | discriminate Hmiss].
      assert (Hne : API_KEY <> EmptyString) by (intros ->; discriminate Hmiss).
      assert (Hbody : destructure (req_body req)
                      = Normal (lookup "type" fields, VObj (without "type" fields)))
        by (rewrite Hobj; reflexivity).
      rewrite (superseded_dispatch up API_KEY req _ _ Hpost Hne Hbody).
      destruct (Superseded.build (lookup "type" fields) (VObj (without "type" fields)))
        as [[payload | e] | ] eqn:Hb.
      * destruct (superseded_respond_settles up (lookup "type" fields)
                    (Superseded.API_URL_BASE ++ "?key=" ++ API_KEY) payload)
          as (w & -> & [(m & logs & ->) | (b & result & logs & -> & _)]);
          do 2 eexists; (split; [reflexivity | split; [reflexivity | cbn; auto]]).
      * exfalso. exact (Hbuilt e eq_refl).
      * do 2 eexists. split; [reflexivity | split; [reflexivity | cbn; auto]].
  - rewrite (proj2 (handlers_not_post up key req Hother)).
    do 2 eexists. split; [reflexivity | split; [reflexivity | cbn; auto]].
Qed.

Lemma superseded_responds_once_witness :
  exists (w : World) (r : Response),
    @Superseded.handler sample_engine (answers true (Normal (VObj []))) (Some "secret")
                        itinerary_request init = (Normal tt, w) /\
    sent w = [r] /\
    (length (fetched w) <= 1)%nat.
Proof.
  apply (@superseded_responds_once sample_engine (answers true (Normal (VObj [])))
           (Some "secret") itinerary_request
           [("type", VStr "itinerary"); ("data", sample_trip)] eq_refl).
  intros e Hb. discriminate Hb.
Defined.

(** ** Failures of the upstream call *)

(** X7.  When [fetch] rejects (the network is down), or when the response
    arrives but [response.json()] rejects (the body is not JSON, whatever
    the status), the handler answers 500 with [{error: message}] where
    [message] is the message of that rejection, logs the error once, and
    does not call the upstream again. *)
Theorem transport_failure_is_reported `{Engine} (up : Upstream) (API_KEY : string)
        (req : Request) (type body : value) (apiUrl : string) (payload : value)
        (e : JsError) :
  req_method req = "POST" ->
  API_KEY <> EmptyString ->
  destructure (req_body req) = Normal (type, body) ->
  Superset.build API_KEY type body = Some (apiUrl, Normal payload) ->
  (up (upstream_call apiUrl payload) = Rejected e \/
   exists okay : bool,
     up (upstream_call apiUrl payload)
     = Resolved {| ok := okay; response_json := Throw e |}) ->
  Superset.handler up (Some API_KEY) req init
  = (Normal tt,
     {| statusCode := 500;
        sent := [{| status := 500; json := VObj [("error", VStr (message e))] |}];
        fetched := [upstream_call apiUrl payload];
        console := [[LogText "Error in serverless function:"; LogError e]] |}).
Proof.
  intros Hpost Hkey Hbody Hbuild Hup.
  rewrite (superset_dispatch up API_KEY req type body Hpost Hkey Hbody), Hbuild.
  destruct Hup as [Hup | [okay Hup]].
  - rewrite (superset_fetch_rejected up type apiUrl payload e Hup). reflexivity.
  - rewrite (superset_body_unreadable up type apiUrl payload okay e Hup). reflexivity.
Qed.

Lemma transport_failure_is_reported_witness :
  sent (snd (@Superset.handler sample_engine
               (always (Rejected (TypeError "fetch failed")))
               (Some "secret") currency_request init))
  = [{| status := 500; json := error_body "fetch failed" |}].
Proof.
  erewrite (@transport_failure_is_reported sample_engine
              (always (Rejected (TypeError "fetch failed")))
              "secret" currency_request (VStr "currency")
              (VObj [("amount", VNum 100); ("from", VStr "USD"); ("to", VStr "EUR")]) _ _
              (TypeError "fetch failed")
              eq_refl (fun Hempty => ltac:(discriminate Hempty)) eq_refl eq_refl
              (or_introl eq_refl)).
  reflexivity.
Defined.

(** ** Where the two versions differ, and where they do not *)

(** X8.  The superseded version does not know [generateImage]: a POST of
    that type is answered 400 [{error: 'Invalid API request type'}] without
    an upstream call, where the authoritative version resolves the
    [predict] endpoint for it. *)
Theorem superseded_rejects_generateImage `{Engine} (up : Upstream) (API_KEY : string)
        (req : Request) (body : value) :
  req_method req = "POST" ->
  API_KEY <> EmptyString ->
  destructure (req_body req) = Normal (VStr "generateImage", body) ->
  Superseded.handler up (Some API_KEY) req init = (Normal tt, rejected_world) /\
  exists building : Completion value,
    Superset.build API_KEY (VStr "generateImage") body
    = Some ("https://generativelanguage.googleapis.com/v1beta/models/imagen-4.0-generate-001:predict?key="
            ++ API_KEY, building).
Proof.
  intros Hpost Hkey Hbody.
  rewrite (superseded_dispatch up API_KEY req _ _ Hpost Hkey Hbody).
  split; [reflexivity | eexists; reflexivity].
Qed.

Lemma superseded_rejects_generateImage_witness :
  @Superseded.handler sample_engine (answers true (Normal VNull)) (Some "secret")
                      image_request init
  = (Normal tt, rejected_world).
Proof.
  apply (@superseded_rejects_generateImage sample_engine (answers true (Normal VNull))
           "secret" image_request (VObj [("prompt", VStr "Eiffel Tower at dusk")])
           eq_refl (fun Hempty => ltac:(discriminate Hempty)) eq_refl).
Defined.

(** X9.  In the superseded version a response with a non-success status
    is answered 500 with [{error: message}]: the upstream's [error.message]
    when the parsed error body carries a non-empty string there, and the
    generic ["Failed to fetch from Gemini API"] (not the text of the
    authoritative version) when it carries no [error] or a falsy
    [message]. *)
Theorem superseded_upstream_failure `{Engine} (up : Upstream) (API_KEY : string)
        (req : Request) (type body payload errorData err : value) :
  req_method req = "POST" ->
  API_KEY <> EmptyString ->
  destructure (req_body req) = Normal (type, body) ->
  Superseded.build type body = Some (Normal payload) ->
  up (upstream_call (Superseded.API_URL_BASE ++ "?key=" ++ API_KEY) payload)
  = Resolved {| ok := false; response_json := Normal errorData |} ->
  GetV errorData "error" = Normal err ->
  (forall reason : string,
      GetOpt err "message" = Normal (VStr reason) ->
      reason <> EmptyString ->
      sent (snd (Superseded.handler up (Some API_KEY) req init))
      = [{| status := 500; json := error_body reason |}]) /\
  (forall m : value,
      GetOpt err "message" = Normal m ->
      ToBoolean m = false ->
      sent (snd (Superseded.handler up (Some API_KEY) req init))
      = [{| status := 500; json := error_body "Failed to fetch from Gemini API" |}]).
Proof.
  intros Hpost Hkey Hbody Hbuild Hup Herr.
  rewrite (superseded_dispatch up API_KEY req type body Hpost Hkey Hbody), Hbuild.
  rewrite (superseded_not_ok up type _ payload errorData Hup).
  unfold Superseded.failure_reason. rewrite Herr. cbn [cbind].
  split.
  - intros reason Hmsg Hne. rewrite Hmsg. cbn [cbind].
    assert (Htrue : ToBoolean (VStr reason) = true).
    { simpl. destruct (String.eqb_spec reason EmptyString); [contradiction | reflexivity]. }
    rewrite Htrue. reflexivity.
  - intros m Hmsg Hfalse. rewrite Hmsg. cbn [cbind]. rewrite Hfalse. reflexivity.
Qed.

Lemma superseded_upstream_failure_witness :
  sent (snd (@Superseded.handler sample_engine (answers false (Normal (VObj [])))
               (Some "secret") currency_request init))
  = [{| status := 500; json := error_body "Failed to fetch from Gemini API" |}].
Proof.
  eapply (proj2 (@superseded_upstream_failure sample_engine
                   (answers false (Normal (VObj [])))
                   "secret" currency_request (VStr "currency")
                   (VObj [("amount", VNum 100); ("from", VStr "USD"); ("to", VStr "EUR")])
                   _ (VObj []) VUndefined
                   eq_refl (fun Hempty => ltac:(discriminate Hempty))
                   eq_refl eq_refl eq_refl eq_refl)
                VUndefined eq_refl eq_refl).
Defined.

(** X10.  Apart from [generateImage], the [try] blocks of the two versions
    are the same program: for every other [type] (itinerary included) and
    every upstream outcome other than a non-success response with a parsed
    body, they leave the same responses, calls and console lines. *)
Theorem try_blocks_agree `{Engine} (up : Upstream) (type : value) (apiUrl : string)
        (payload : value) :
  strict_eq type "generateImage" = false ->
  (forall errorData : value,
      up (upstream_call apiUrl payload)
      <> Resolved {| ok := false; response_json := Normal errorData |}) ->
  Superseded.respond up type apiUrl payload init
  = Superset.respond up type apiUrl payload init.
Proof.
  intros Himg Hok.
  destruct (up (upstream_call apiUrl payload)) as [e | [okay [v | e]]] eqn:Hup.
  - rewrite (superseded_fetch_rejected up type apiUrl payload e Hup),
            (superset_fetch_rejected up type apiUrl payload e Hup). reflexivity.
  - destruct okay; [ | exfalso; exact (Hok v eq_refl)].
    destruct (strict_eq type "itinerary") eqn:Hit.
    + rewrite (superseded_itinerary up type apiUrl payload v Hup (strict_eq_true _ _ Hit)),
              (superset_itinerary up type apiUrl payload v Hup (strict_eq_true _ _ Hit)).
      reflexivity.
    + rewrite (superseded_passthrough up type apiUrl payload v Hup Hit),
              (superset_passthrough up type apiUrl payload v Hup Himg Hit).
      reflexivity.
  - rewrite (superseded_body_unreadable up type apiUrl payload okay e Hup),
            (superset_body_unreadable up type apiUrl payload okay e Hup). reflexivity.
Qed.

Lemma try_blocks_agree_witness :
  @Superseded.respond sample_engine (answers true (Normal (model_says (VStr "{}"))))
                      (VStr "itinerary") "https://upstream.example/generate" (VObj []) init
  = @Superset.respond sample_engine (answers true (Normal (model_says (VStr "{}"))))
                      (VStr "itinerary") "https://upstream.example/generate" (VObj []) init.
Proof.
  apply (@try_blocks_agree sample_engine (answers true (Normal (model_says (VStr "{}"))))
           (VStr "itinerary") "https://upstream.example/generate" (VObj []) eq_refl).
  intros errorData Habs. discriminate Habs.
Defined.

(** X11.  The API key goes to the query string of the endpoint and nowhere
    else: for every [type] and [body], either no key selects a case, or
    there are a base URL and a payload computation, both independent of
    the key, such that the switch yields [base?key=<key>] and that
    payload for every key. *)
Theorem api_key_only_in_url `{Engine} (type body : value) :
  (forall API_KEY : string, Superset.build API_KEY type body = None) \/
  exists (base : string) (building : Completion value),
    forall API_KEY : string,
      Superset.build API_KEY type body = Some (base ++ "?key=" ++ API_KEY, building).
Proof.
  unfold Superset.build.
  pose (text := "https://generativelanguage.googleapis.com/v1beta/models/gemini-2.5-flash-preview-09-2025:generateContent").
  pose (image := "https://generativelanguage.googleapis.com/v1beta/models/imagen-4.0-generate-001:predict").
  destruct (strict_eq type "itinerary");
    [right; exists text; eexists; intros API_KEY; reflexivity | ].
  destruct (strict_eq type "groundedSearch");
    [right; exists text; eexists; intros API_KEY; reflexivity | ].
  destruct (strict_eq type "contextualQa");
    [right; exists text; eexists; intros API_KEY; reflexivity | ].
  destruct (strict_eq type "flights");
    [right; exists text; eexists; intros API_KEY; reflexivity | ].
  destruct (strict_eq type "packingList");
    [right; exists text; eexists; intros API_KEY; reflexivity | ].
  destruct (strict_eq type "currency");
    [right; exists text; eexists; intros API_KEY; reflexivity | ].
  destruct (strict_eq type "generateImage");
    [right; exists image; eexists; intros API_KEY; reflexivity | ].
  left. intros API_KEY. reflexivity.
Qed.

(** ** The itinerary branch *)

(** X12.  For type 'itinerary', when the upstream answers [ok] and the text
    at [candidates[0].content.parts[0].text] parses as JSON, the handler
    answers 200 with the parsed value as it is, and logs nothing. *)
Theorem itinerary_text_is_returned_parsed `{Engine} (up : Upstream) (API_KEY : string)
        (req : Request) (body : value) (apiUrl : string)
        (payload result jsonText parsedJson : value) (s : string) :
  req_method req = "POST" ->
  API_KEY <> EmptyString ->
  destructure (req_body req) = Normal (VStr "itinerary", body) ->
  Superset.build API_KEY (VStr "itinerary") body = Some (apiUrl, Normal payload) ->
  up (upstream_call apiUrl payload)
  = Resolved {| ok := true; response_json := Normal result |} ->
  candidate_text result = Normal jsonText ->
  ToString jsonText = Normal s ->
  JSON_parse s = Normal parsedJson ->
  Superset.handler up (Some API_KEY) req init
  = (Normal tt,
     {| statusCode := 200;
        sent := [{| status := 200; json := parsedJson |}];
        fetched := [upstream_call apiUrl payload];
        console := [] |}).
Proof.
  intros Hpost Hkey Hbody Hbuild Hup Htext Hs Hparse.
  rewrite (superset_dispatch up API_KEY req _ body Hpost Hkey Hbody), Hbuild.
  rewrite (superset_itinerary up _ apiUrl payload result Hup eq_refl).
  rewrite Htext. cbn [cbind]. rewrite Hs. cbn [cbind]. rewrite Hparse. reflexivity.
Qed.

Lemma itinerary_text_is_returned_parsed_witness :
  sent (snd (@Superset.handler sample_engine
               (answers true (Normal (model_says (VStr "{}"))))
               (Some "secret") itinerary_request init))
  = [{| status := 200; json := VObj [] |}].
Proof.
  erewrite (@itinerary_text_is_returned_parsed sample_engine
              (answers true (Normal (model_says (VStr "{}"))))
              "secret" itinerary_request (VObj [("data", sample_trip)]) _ _
              (model_says (VStr "{}")) (VStr "{}") (VObj []) "{}"
              eq_refl (fun Hempty => ltac:(discriminate Hempty)) eq_refl eq_refl
              eq_refl eq_refl eq_refl eq_refl).
  reflexivity.
Defined.

(** X13.  For type 'itinerary', whatever goes wrong after an [ok] response
    (a missing [candidates], [content] or [parts], a text that is not
    JSON), the client receives exactly one response, its status is 500 and
    its body is [{error: <string>}], and the handler ends normally. *)
Theorem itinerary_failure_is_500 `{Engine} (up : Upstream) (API_KEY : string)
        (req : Request) (body : value) (apiUrl : string) (payload result : value)
        (parseError : JsError) :
  req_method req = "POST" ->
  API_KEY <> EmptyString ->
  destructure (req_body req) = Normal (VStr "itinerary", body) ->
  Superset.build API_KEY (VStr "itinerary") body = Some (apiUrl, Normal payload) ->
  up (upstream_call apiUrl payload)
  = Resolved {| ok := true; response_json := Normal result |} ->
  (let* jsonText := candidate_text result in
   let* s := ToString jsonText in JSON_parse s) = Throw parseError ->
  exists (w : World) (m : string),
    Superset.handler up (Some API_KEY) req init = (Normal tt, w) /\
    sent w = [{| status := 500; json := error_body m |}].
Proof.
  intros Hpost Hkey Hbody Hbuild Hup Hfail.
  rewrite (superset_dispatch up API_KEY req _ body Hpost Hkey Hbody), Hbuild.
  rewrite (superset_itinerary up _ apiUrl payload result Hup eq_refl).
  rewrite Hfail.
  destruct (candidate_text_opt result); do 2 eexists; split; reflexivity.
Qed.

Lemma itinerary_failure_is_500_witness :
  exists (w : World) (m : string),
    @Superset.handler sample_engine (answers true (Normal (VArr [])))
                      (Some "secret") itinerary_request init = (Normal tt, w) /\
    sent w = [{| status := 500; json := error_body m |}].
Proof.
  eapply (@itinerary_failure_is_500 sample_engine (answers true (Normal (VArr [])))
            "secret" itinerary_request (VObj [("data", sample_trip)]) _ _ (VArr []) _
            eq_refl (fun Hempty => ltac:(discriminate Hempty)) eq_refl eq_refl
            eq_refl eq_refl).
Defined.

(** ** When the payload cannot be built *)

(** X14.  The itinerary, flights and packingList cases read their fields
    from [body.data] without checking it: when [data] is absent or [null],
    building the prompt throws a [TypeError] in the switch, outside the
    [try] block, and in both versions the handler ends with that exception
    without a response or an upstream call. *)
Theorem missing_data_is_unhandled `{Engine} (up : Upstream) (API_KEY : string)
        (req : Request) (k : RequestKind) (body data : value) :
  req_method req = "POST" ->
  API_KEY <> EmptyString ->
  In k needs_data ->
  destructure (req_body req) = Normal (VStr (kind_name k), body) ->
  GetV body "data" = Normal data ->
  nullish data = true ->
  exists m : string,
    Superset.handler up (Some API_KEY) req init = (Throw (TypeError m), init) /\
    Superseded.handler up (Some API_KEY) req init = (Throw (TypeError m), init).
Proof.
  intros Hpost Hkey Hin Hbody Hdata Hnull.
  rewrite (superset_dispatch up API_KEY req _ body Hpost Hkey Hbody),
          (superseded_dispatch up API_KEY req _ body Hpost Hkey Hbody).
  assert (Hk : k = itinerary \/ k = flights \/ k = packingList)
    by (simpl in Hin; intuition auto).
  destruct Hk as [-> | [-> | ->]]; cbn [kind_name];
    unfold Superset.build, Superseded.build;
    cbn [strict_eq String.eqb Ascii.eqb Bool.eqb];
    rewrite Hdata; cbn [cbind];
    destruct data; try discriminate Hnull; eexists; split; reflexivity.
Qed.

Lemma missing_data_is_unhandled_witness :
  exists m : string,
    @Superset.handler sample_engine (answers true (Normal VNull)) (Some "secret")
                      (post (VObj [("type", VStr "flights")])) init
    = (Throw (TypeError m), init) /\
    @Superseded.handler sample_engine (answers true (Normal VNull)) (Some "secret")
                        (post (VObj [("type", VStr "flights")])) init
    = (Throw (TypeError m), init).
Proof.
  apply (@missing_data_is_unhandled sample_engine (answers true (Normal VNull)) "secret"
           (post (VObj [("type", VStr "flights")])) flights (VObj []) VUndefined
           eq_refl (fun Hempty => ltac:(discriminate Hempty))
           (or_intror (or_introl eq_refl)) eq_refl eq_refl eq_refl).
Defined.

(** ** When the payload is built *)

Section ValueInduction.
Variable P : value -> Prop.
Hypothesis Hundefined : P VUndefined.
Hypothesis Hnull : P VNull.
Hypothesis Hbool : forall b, P (VBool b).
Hypothesis Hnum : forall q, P (VNum q).
Hypothesis Hstr : forall s, P (VStr s).
Hypothesis Harr : forall items, Forall P items -> P (VArr items).
Hypothesis Hobj : forall fields, Forall (fun field => P (snd field)) fields -> P (VObj fields).

Fixpoint value_nested_ind (v : value) : P v :=
  match v with
  | VUndefined => Hundefined
  | VNull => Hnull
  | VBool b => Hbool b
  | VNum q => Hnum q
  | VStr s => Hstr s
  | VArr items =>
      Harr items
           ((fix all (l : list value) : Forall P l :=
               match l with
               | [] => Forall_nil P
               | x :: rest => Forall_cons x (value_nested_ind x) (all rest)
               end) items)
  | VObj fields =>
      Hobj fields
           ((fix all (l : list (string * value)) : Forall (fun field => P (snd field)) l :=
               match l with
               | [] => Forall_nil _
               | (k, x) :: rest =>
                   @Forall_cons _ (fun field => P (snd field)) (k, x) rest
                                (value_nested_ind x) (all rest)
               end) fields)
  end.

End ValueInduction.

Lemma ToString_cons `{Engine} (x : value) (rest : list value) :
  ToString (VArr (x :: rest)) =
  let* sx := (match x with
              | VUndefined | VNull => Normal EmptyString
              | _ => ToString x
              end) in
  match rest with
  | [] => Normal sx
  | _ => let* sr := ToString (VArr rest) in Normal (sx ++ "," ++ sr)
  end.
Proof. destruct rest; reflexivity. Qed.

(** [ToString] throws on nothing but an object with an own [toString]. *)
Lemma ToString_plain `{Engine} (v : value) :
  plain v = true -> exists s : string, ToString v = Normal s.
Proof.
  induction v as [ | | b | q | s | items IH | fields IH ] using value_nested_ind;
    intros Hplain; try (eexists; reflexivity).
  - destruct b; eexists; reflexivity.
  - induction IH as [ | x rest Hx Hrest IHrest ].
    + eexists; reflexivity.
    + cbn [plain] in Hplain. apply andb_prop in Hplain. destruct Hplain as [Hpx Hprest].
      rewrite ToString_cons.
      assert (Hsx : exists sx, (match x with
                                | VUndefined | VNull => Normal EmptyString
                                | _ => ToString x
                                end) = Normal sx).
      { destruct (Hx Hpx) as [sx Hsx]. destruct x; eauto. }
      destruct Hsx as [sx ->]. cbn [cbind].
      destruct rest as [ | y rest' ]; [eauto | ].
      destruct (IHrest Hprest) as [sr ->]. cbn [cbind]. eauto.
  - cbn [plain] in Hplain. apply andb_prop in Hplain. destruct Hplain as [Hown _].
    cbn [ToString]. apply negb_true_iff in Hown. rewrite Hown. eauto.
Qed.

Lemma lookup_plain (k : string) (fields : list (string * value)) :
  plain (VObj fields) = true -> plain (lookup k fields) = true.
Proof.
  cbn [plain]. intros Hplain. apply andb_prop in Hplain. destruct Hplain as [_ Hall].
  induction fields as [ | [k' x] rest IH ]; [reflexivity | ].
  apply andb_prop in Hall. destruct Hall as [Hx Hrest].
  cbn [lookup]. destruct (String.eqb k k'); [exact Hx | exact (IH Hrest)].
Qed.

Lemma nth_plain (items : list value) (i : nat) :
  plain (VArr items) = true -> plain (nth i items VUndefined) = true.
Proof.
  revert i. induction items as [ | x rest IH ]; intros i Hplain.
  - destruct i; reflexivity.
  - cbn [plain] in Hplain. apply andb_prop in Hplain. destruct Hplain as [Hx Hrest].
    destruct i; [exact Hx | exact (IH i Hrest)].
Qed.

(** A read on a plain value other than [undefined] and [null] gives a
    plain value. *)
Lemma GetV_plain (v : value) (k : string) :
  plain v = true -> nullish v = false ->
  exists x : value, GetV v k = Normal x /\ plain x = true.
Proof.
  intros Hplain Hdef.
  destruct v as [ | | b | q | s | items | fields ]; try discriminate Hdef; cbn [GetV].
  - eauto.
  - eauto.
  - destruct (String.eqb k "length"); [eauto | ].
    destruct (array_index k) as [i | ]; [ | eauto].
    destruct (String.get i s); eauto.
  - destruct (String.eqb k "length"); [eauto | ].
    destruct (array_index k) as [i | ]; [ | eauto].
    eexists. split; [reflexivity | exact (nth_plain items i Hplain)].
  - eexists. split; [reflexivity | exact (lookup_plain k fields Hplain)].
Qed.

Lemma template_converts `{Engine} (ps : list piece) :
  Forall converts ps -> exists s : string, template ps = Normal s.
Proof.
  induction 1 as [ | p rest Hp Hrest IH ]; [eexists; reflexivity | ].
  destruct IH as [r Hr]. destruct p as [s | e]; cbn [template].
  - rewrite Hr. eexists; reflexivity.
  - destruct Hp as (v & -> & Hv). cbn [cbind].
    destruct (ToString_plain v Hv) as [sv ->]. cbn [cbind]. rewrite Hr.
    eexists; reflexivity.
Qed.

Lemma read_converts `{Engine} (v : value) (k : string) :
  plain v = true -> nullish v = false -> converts (Sub (GetV v k)).
Proof. intros Hp Hd. exact (GetV_plain v k Hp Hd). Qed.

Lemma read_or_converts `{Engine} (v : value) (k d : string) :
  plain v = true -> nullish v = false -> converts (Sub (or_else (GetV v k) (VStr d))).
Proof.
  intros Hp Hd. destruct (GetV_plain v k Hp Hd) as (x & Hx & Hpx).
  unfold or_else. rewrite Hx. cbn [cbind converts].
  destruct (ToBoolean x); eauto.
Qed.

(** The optional return date of the flights prompt. *)
Lemma return_date_converts `{Engine} (flightData : value) :
  plain flightData = true -> nullish flightData = false ->
  converts (Sub (let* back := GetV flightData "flight-return-date" in
                 if ToBoolean back
                 then let* s := template [ Lit " and returning on ";
                                           Sub (GetV flightData "flight-return-date") ] in
                      Normal (VStr s)
                 else Normal (VStr EmptyString))).
Proof.
  intros Hp Hd.
  destruct (GetV_plain flightData "flight-return-date" Hp Hd) as (x & Hx & Hpx).
  cbn [converts template]. rewrite Hx. cbn [cbind].
  destruct (ToString_plain x Hpx) as [sx ->]. cbn [cbind].
  destruct (ToBoolean x); eexists; split; reflexivity.
Qed.

Ltac all_convert Hbody Hdata Hdef :=
  repeat first
    [ apply Forall_nil
    | apply Forall_cons
    | exact I
    | apply return_date_converts; assumption
    | apply read_or_converts; assumption
    | apply read_converts; [assumption | first [assumption | reflexivity]]
    | (eexists; split; [reflexivity | apply lookup_plain; exact Hbody]) ].

Lemma superset_build_plain `{Engine} (k : RequestKind) (API_KEY : string)
        (fields : list (string * value)) :
  plain (VObj fields) = true ->
  (In k needs_data -> nullish (lookup "data" fields) = false) ->
  exists (apiUrl : string) (payload : value),
    Superset.build API_KEY (VStr (kind_name k)) (VObj fields)
    = Some (apiUrl, Normal payload).
Proof.
  intros Hbody Hneeds.
  pose proof (lookup_plain "data" fields Hbody) as Hdata.
  assert (Hobj : nullish (VObj fields) = false) by reflexivity.
  destruct k; cbn [kind_name]; unfold Superset.build, Superset.itinerary_prompt;
    cbn [strict_eq String.eqb Ascii.eqb Bool.eqb]; cbn [GetV cbind];
    try (assert (Hdef : nullish (lookup "data" fields) = false)
           by (apply Hneeds; simpl; tauto));
    try match goal with
        | |- context [cbind (template ?ps) _] =>
            let p := fresh "p" in
            let Hp := fresh "Hp" in
            destruct (template_converts ps) as [p Hp];
            [ all_convert Hbody Hdata Hobj | rewrite Hp; cbn [cbind] ]
        end;
    do 2 eexists; reflexivity.
Qed.

(** X15.  Payload construction fails only on missing [data] or on a value
    with an own [toString] property: for each of the seven kinds and every
    body object in which no object has an own [toString] property, and
    whose [data] is present when the kind reads it, the switch builds a
    payload.  Missing fields do not stop it. *)
Theorem payload_is_built_from_plain_body `{Engine} (k : RequestKind) (API_KEY : string)
        (fields : list (string * value)) :
  plain (VObj fields) = true ->
  (In k needs_data -> nullish (lookup "data" fields) = false) ->
  exists (apiUrl : string) (payload : value),
    Superset.build API_KEY (VStr (kind_name k)) (VObj fields)
    = Some (apiUrl, Normal payload).
Proof. exact (superset_build_plain k API_KEY fields). Qed.

Lemma payload_is_built_from_plain_body_witness :
  exists (apiUrl : string) (payload : value),
    @Superset.build sample_engine "secret" (VStr "packingList")
                    (VObj [("data", VObj [("pack-destination", VArr [VStr "Paris"; VNull])])])
    = Some (apiUrl, Normal payload).
Proof.
  apply (@payload_is_built_from_plain_body sample_engine packingList "secret"
           [("data", VObj [("pack-destination", VArr [VStr "Paris"; VNull])])] eq_refl).
  intros _. reflexivity.
Defined.

(** C5.  For each of the seven kinds the switch resolves an endpoint and a
    payload computation.  The endpoint URL contains [generateContent] for the
    six text kinds and [predict] for [generateImage].  Every payload that is
    built has the [{contents, generationConfig?, tools?}] shape for the text
    kinds and the [{instances: [{prompt}], parameters: {sampleCount: 1}}]
    shape for [generateImage].  And a payload is built: for every body
    object in which no object has an own [toString] property, with [data]
    present when the kind reads it. *)
Theorem build_matches_contract `{Engine} (k : RequestKind) (API_KEY : string) (body : value) :
  exists (apiUrl : string) (building : Completion value),
    Superset.build API_KEY (VStr (kind_name k)) body = Some (apiUrl, building) /\
    contains (if text_kind k then "generateContent" else "predict") apiUrl /\
    (forall payload : value,
        building = Normal payload ->
        if text_kind k then text_shape payload else image_shape payload) /\
    (forall fields : list (string * value),
        body = VObj fields ->
        plain body = true ->
        (In k needs_data -> nullish (lookup "data" fields) = false) ->
        exists payload : value,
          building = Normal payload /\
          if text_kind k then text_shape payload else image_shape payload).
Proof.
  destruct (superset_build_shape k API_KEY body)
    as (apiUrl & building & Hbuild & Hurl & Hshape).
  exists apiUrl, building.
  split; [exact Hbuild | split; [exact Hurl | split; [exact Hshape | ]]].
  intros fields Hobj Hplain Hdata. subst body.
  destruct (superset_build_plain k API_KEY fields Hplain Hdata) as (u & payload & Hp).
  rewrite Hbuild in Hp. injection Hp as _ Hp.
  exists payload. split; [exact Hp | exact (Hshape payload Hp)].
Qed.

Lemma build_matches_contract_witness :
  (exists (apiUrl : string) (payload : value),
      @Superset.build sample_engine "secret" (VStr "generateImage")
                      (sample_body generateImage) = Some (apiUrl, Normal payload) /\
      contains "predict" apiUrl /\ image_shape payload) /\
  (exists (apiUrl : string) (payload : value),
      @Superset.build sample_engine "secret" (VStr "itinerary")
                      (sample_body itinerary) = Some (apiUrl, Normal payload) /\
      contains "generateContent" apiUrl /\ text_shape payload).
Proof.
  split.
  - destruct (@build_matches_contract sample_engine generateImage "secret"
                (sample_body generateImage))
      as (apiUrl & building & Hbuild & Hurl & _ & Hbuilt).
    destruct (Hbuilt [("prompt", VStr "Eiffel Tower at dusk")] eq_refl eq_refl)
      as (payload & Hp & Hshape).
    + intros Hin. simpl in Hin. exfalso.
      destruct Hin as [Hin | [Hin | [Hin | []]]]; discriminate Hin.
    + exists apiUrl, payload. cbn [kind_name] in Hbuild. rewrite Hbuild, Hp.
      split; [reflexivity | split; [exact Hurl | exact Hshape]].
  - destruct (@build_matches_contract sample_engine itinerary "secret"
                (sample_body itinerary))
      as (apiUrl & building & Hbuild & Hurl & _ & Hbuilt).
    destruct (Hbuilt [("data", sample_trip)] eq_refl eq_refl) as (payload & Hp & Hshape).
    + intros _. reflexivity.
    + exists apiUrl, payload. cbn [kind_name] in Hbuild. rewrite Hbuild, Hp.
      split; [reflexivity | split; [exact Hurl | exact Hshape]].
Defined.

(** ** What the prompts say *)

Lemma append_assoc (a b c : string) : (a ++ b) ++ c = a ++ (b ++ c).
Proof. induction a as [ | x a IH ]; simpl; [reflexivity | now rewrite IH]. Qed.

Lemma template_lit `{Engine} (s : string) (rest : list piece) (p : string) :
  template (Lit s :: rest) = Normal p ->
  exists r : string, template rest = Normal r /\ p = s ++ r.
Proof.
  cbn [template]. intros Hp. apply cbind_normal in Hp. destruct Hp as (r & Hr & Hp).
  injection Hp as <-. eauto.
Qed.

Lemma template_sub `{Engine} (e : Completion value) (rest : list piece) (p : string) :
  template (Sub e :: rest) = Normal p ->
  exists (v : value) (s r : string),
    e = Normal v /\ ToString v = Normal s /\ template rest = Normal r /\ p = s ++ r.
Proof.
  cbn [template]. intros Hp.
  apply cbind_normal in Hp. destruct Hp as (v & Hv & Hp).
  apply cbind_normal in Hp. destruct Hp as (s & Hs & Hp).
  apply cbind_normal in Hp. destruct Hp as (r & Hr & Hp).
  injection Hp as <-. eauto 8.
Qed.

(** Peel the first piece of the template evaluated in [Hp]. *)
Ltac peel Hp :=
  first
    [ let r := fresh "r" in
      let Hr := fresh "Hr" in
      apply template_lit in Hp; destruct Hp as (r & Hr & ->); rename Hr into Hp
    | let v := fresh "v" in
      let s := fresh "s" in
      let r := fresh "r" in
      let Hv := fresh "Hv" in
      let Hs := fresh "Hs" in
      let Hr := fresh "Hr" in
      apply template_sub in Hp; destruct Hp as (v & s & r & Hv & Hs & Hr & ->);
      rename Hr into Hp ].

Lemma itinerary_destination `{Engine} (pieces : list piece) (header : string)
      (data vc vd : value) (c d p : string) :
  GetV data "cities" = Normal vc -> ToString vc = Normal c ->
  GetV data "country" = Normal vd -> ToString vd = Normal d ->
  template (Lit (header ++ "- Destination: ") :: Sub (GetV data "cities") :: Lit ", "
            :: Sub (GetV data "country") :: pieces) = Normal p ->
  contains ("- Destination: " ++ c ++ ", " ++ d) p.
Proof.
  intros Hvc Hc Hvd Hd Hp.
  peel Hp. peel Hp. peel Hp. peel Hp.
  rewrite Hvc in Hv. injection Hv as <-. rewrite Hc in Hs. injection Hs as <-.
  rewrite Hvd in Hv0. injection Hv0 as <-. rewrite Hd in Hs0. injection Hs0 as <-.
  match goal with
  | Hrest : template pieces = Normal ?rest |- _ => exists header, rest
  end.
  rewrite !append_assoc. reflexivity.
Qed.

(** Name the text in front of the destination line in the prompt of [Hp]. *)
Ltac split_header Hp :=
  match type of Hp with
  | template (Lit ?big :: ?rest) = Normal ?p =>
      let n := eval vm_compute in (String.length big - 15)%nat in
      let header := eval vm_compute in (substring 0 n big) in
      change (template (Lit (header ++ "- Destination: ") :: rest) = Normal p) in Hp
  end.

(** X17.  The itinerary prompt of either version names the destination as
    ["- Destination: <cities>, <country>"], each field converted to text as
    a template literal does: a field that is absent appears as the text
    [undefined]. *)
Theorem itinerary_prompt_names_destination `{Engine} (data vc vd : value) (c d : string) :
  GetV data "cities" = Normal vc -> ToString vc = Normal c ->
  GetV data "country" = Normal vd -> ToString vd = Normal d ->
  (forall p : string,
      Superset.itinerary_prompt data = Normal p ->
      contains ("- Destination: " ++ c ++ ", " ++ d) p) /\
  (forall p : string,
      Superseded.itinerary_prompt data = Normal p ->
      contains ("- Destination: " ++ c ++ ", " ++ d) p).
Proof.
  intros Hvc Hc Hvd Hd. split; intros p Hp.
  - unfold Superset.itinerary_prompt in Hp. split_header Hp.
    exact (itinerary_destination _ _ data vc vd c d p Hvc Hc Hvd Hd Hp).
  - unfold Superseded.itinerary_prompt in Hp. split_header Hp.
    exact (itinerary_destination _ _ data vc vd c d p Hvc Hc Hvd Hd Hp).
Qed.

Lemma itinerary_prompt_names_destination_witness :
  exists p : string,
    @Superset.itinerary_prompt sample_engine (VObj [("cities", VStr "Kandy")]) = Normal p /\
    contains "- Destination: Kandy, undefined" p.
Proof.
  eexists. split; [reflexivity | ].
  apply (proj1 (@itinerary_prompt_names_destination sample_engine
                  (VObj [("cities", VStr "Kandy")]) (VStr "Kandy") VUndefined
                  "Kandy" "undefined" eq_refl eq_refl eq_refl eq_refl)).
  reflexivity.
Defined.

Lemma contains_skip (needle a r : string) : contains needle r -> contains needle (a ++ r).
Proof.
  intros (pre & post & ->). exists (a ++ pre), post. now rewrite append_assoc.
Qed.

(** A labelled substitution somewhere in a template shows in the text. *)
Lemma template_contains_at `{Engine} (before : list piece) (lead label : string)
      (e : Completion value) (after : list piece) (v : value) (s p : string) :
  template (before ++ Lit (lead ++ label) :: Sub e :: after) = Normal p ->
  e = Normal v ->
  ToString v = Normal s ->
  contains (label ++ s) p.
Proof.
  revert p. induction before as [ | [l | e'] before IH ]; intros p Hp He Hs.
  - cbn [app] in Hp. peel Hp. peel Hp.
    rewrite He in Hv. injection Hv as <-. rewrite Hs in Hs0. injection Hs0 as <-.
    match goal with
    | Hrest : template after = Normal ?rest |- _ => exists lead, rest
    end.
    rewrite !append_assoc. reflexivity.
  - cbn [app] in Hp. peel Hp. apply contains_skip. exact (IH _ Hp He Hs).
  - cbn [app] in Hp. peel Hp. apply contains_skip. exact (IH _ Hp He Hs).
Qed.

Lemma or_else_read `{Engine} (data x : value) (k fallback : string) :
  GetV data k = Normal x ->
  or_else (GetV data k) (VStr fallback)
  = Normal (if ToBoolean x then x else VStr fallback).
Proof. intros Hx. unfold or_else. rewrite Hx. reflexivity. Qed.

(** Find the labelled substitution after the first [n] pieces of [Hp]. *)
Ltac at_piece n lead label Hp :=
  match type of Hp with
  | template ?pieces = Normal ?p =>
      let before := eval cbv [firstn] in (firstn n pieces) in
      let rest := eval cbv [skipn] in (skipn n pieces) in
      match rest with
      | _ :: Sub ?e :: ?after =>
          eapply (template_contains_at before lead label e after _ _ p Hp)
      end
  end.

(** X18.  The two optional fields of the itinerary prompt fall back to a
    fixed text when they are falsy (absent, [null], empty, [0], [false]):
    the prompt of either version then says
    ["- Staying At (Starting Point): Central location"] and
    ["- Interests: N/A"]; a truthy field appears as its own text. *)
Theorem itinerary_prompt_fallbacks `{Engine} (data stay interests : value) (p : string) :
  GetV data "staying-at" = Normal stay ->
  GetV data "interests" = Normal interests ->
  Superset.itinerary_prompt data = Normal p \/ Superseded.itinerary_prompt data = Normal p ->
  (ToBoolean stay = false ->
   contains "- Staying At (Starting Point): Central location" p) /\
  (ToBoolean interests = false -> contains "- Interests: N/A" p) /\
  (forall s : string,
      ToBoolean stay = true -> ToString stay = Normal s ->
      contains ("- Staying At (Starting Point): " ++ s) p) /\
  (forall s : string,
      ToBoolean interests = true -> ToString interests = Normal s ->
      contains ("- Interests: " ++ s) p).
Proof.
  intros Hstay Hint Hp.
  pose proof (or_else_read data stay "staying-at" "Central location" Hstay) as Hs.
  pose proof (or_else_read data interests "interests" "N/A" Hint) as Hi.
  destruct Hp as [Hp | Hp];
    [unfold Superset.itinerary_prompt in Hp | unfold Superseded.itinerary_prompt in Hp].
  all: split; [ | split; [ | split]].
  all: try (intros Hfalse; rewrite Hfalse in *).
  all: try (intros s Htrue Htext; rewrite Htrue in * ).
  1, 5: at_piece 4%nat nl "- Staying At (Starting Point): " Hp; [exact Hs | reflexivity].
  1, 4: at_piece 16%nat nl "- Interests: " Hp; [exact Hi | reflexivity].
  1, 3: at_piece 4%nat nl "- Staying At (Starting Point): " Hp; [exact Hs | exact Htext].
  1, 2: at_piece 16%nat nl "- Interests: " Hp; [exact Hi | exact Htext].
Qed.

Lemma itinerary_prompt_fallbacks_witness :
  exists p : string,
    @Superset.itinerary_prompt sample_engine (VObj [("staying-at", VStr EmptyString)])
    = Normal p /\
    contains "- Staying At (Starting Point): Central location" p /\
    contains "- Interests: N/A" p.
Proof.
  eexists. split; [reflexivity | ].
  destruct (@itinerary_prompt_fallbacks sample_engine
              (VObj [("staying-at", VStr EmptyString)]) (VStr EmptyString) VUndefined _
              eq_refl eq_refl (or_introl eq_refl)) as (Hstay & Hinterests & _).
  split; [exact (Hstay eq_refl) | exact (Hinterests eq_refl)].
Defined.

(** X19.  The return date of the flights prompt is optional: when
    [flight-return-date] is falsy (absent, empty, [null]) the prompt goes
    from the departure date straight to the travellers,
    [", departing on <date> for "]; when it is truthy the prompt says
    [", departing on <date> and returning on <return> for "]. *)
Theorem flights_return_date_is_optional `{Engine} (API_KEY : string)
        (body flightData depart back : value) (apiUrl : string) (payload : value)
        (sd : string) :
  GetV body "data" = Normal flightData ->
  GetV flightData "flight-depart-date" = Normal depart ->
  ToString depart = Normal sd ->
  GetV flightData "flight-return-date" = Normal back ->
  Superset.build API_KEY (VStr "flights") body = Some (apiUrl, Normal payload) ->
  exists text : string,
    payload = VObj [ ("contents", VArr [VObj [("parts", VArr [VObj [("text", VStr text)]])]]);
                     ("tools", VArr [VObj [("google_search", VObj [])]]) ] /\
    (ToBoolean back = false -> contains (", departing on " ++ sd ++ " for ") text) /\
    (forall sr : string,
        ToBoolean back = true -> ToString back = Normal sr ->
        contains (", departing on " ++ sd ++ " and returning on " ++ sr ++ " for ") text).
Proof.
  intros Hdata Hdepart Hsd Hback Hbuild.
  unfold Superset.build in Hbuild.
  cbn [strict_eq String.eqb Ascii.eqb Bool.eqb] in Hbuild.
  rewrite Hdata in Hbuild. cbn [cbind] in Hbuild.
  match type of Hbuild with
  | context [cbind (template ?pieces) _] =>
      destruct (template pieces) as [text | e] eqn:Hp; cbn [cbind] in Hbuild;
      [ | discriminate Hbuild]
  end.
  injection Hbuild as _ <-.
  exists text. split; [reflexivity | ].
  do 4 peel Hp. peel Hp. peel Hp.
  rewrite Hdepart in Hv1. injection Hv1 as <-. rewrite Hsd in Hs1. injection Hs1 as <-.
  peel Hp. peel Hp.
  rewrite Hback in Hv1. cbn [cbind] in Hv1.
  match goal with
  | Hrest : template _ = Normal ?rest |- _ => rename rest into tail
  end.
  split.
  - intros Hfalse. rewrite Hfalse in Hv1. injection Hv1 as <-.
    cbn [ToString] in Hs1. injection Hs1 as <-.
    do 4 apply contains_skip.
    exists EmptyString, tail. rewrite !append_assoc. reflexivity.
  - intros sr Htrue Hsr. rewrite Htrue in Hv1.
    apply cbind_normal in Hv1. destruct Hv1 as (said & Hsaid & Hv1). injection Hv1 as <-.
    cbn [ToString] in Hs1. injection Hs1 as <-.
    peel Hsaid. peel Hsaid.
    injection Hv1 as <-. rewrite Hsr in Hs1. injection Hs1 as <-.
    cbn [template] in Hsaid. injection Hsaid as <-.
    do 4 apply contains_skip.
    exists EmptyString, tail. rewrite !append_assoc. reflexivity.
Qed.

Lemma flights_return_date_is_optional_witness :
  exists (apiUrl : string) (payload : value) (text : string),
    @Superset.build sample_engine "secret" (VStr "flights") (sample_body flights)
    = Some (apiUrl, Normal payload) /\
    payload = VObj [ ("contents", VArr [VObj [("parts", VArr [VObj [("text", VStr text)]])]]);
                     ("tools", VArr [VObj [("google_search", VObj [])]]) ] /\
    contains ", departing on 2025-05-01 for " text.
Proof.
  do 2 eexists.
  destruct (@flights_return_date_is_optional sample_engine "secret" (sample_body flights)
              _ _ _ _ _ _ eq_refl eq_refl eq_refl eq_refl eq_refl)
    as (text & Hpayload & Hnone & _).
  exists text. split; [reflexivity | split; [exact Hpayload | exact (Hnone eq_refl)]].
Defined.

Lemma without_plain (fields : list (string * value)) :
  plain (VObj fields) = true -> plain (VObj (without "type" fields)) = true.
Proof.
  cbn [plain]. intros Hplain. apply andb_prop in Hplain. destruct Hplain as [Hown Hall].
  apply negb_true_iff in Hown. apply andb_true_intro. split.
  - apply negb_true_iff.
    induction fields as [ | [k x] rest IH ]; [reflexivity | ].
    cbn [hasOwn] in Hown. apply orb_false_elim in Hown. destruct Hown as [Hk Hrest].
    apply andb_prop in Hall. destruct Hall as [_ Hall].
    cbn [without]. destruct (String.eqb "type" k); [exact (IH Hrest Hall) | ].
    cbn [hasOwn]. rewrite Hk. exact (IH Hrest Hall).
  - clear Hown. induction fields as [ | [k x] rest IH ]; [reflexivity | ].
    apply andb_prop in Hall. destruct Hall as [Hx Hall].
    cbn [without]. destruct (String.eqb "type" k); [exact (IH Hall) | ].
    apply andb_true_intro. split; [exact Hx | exact (IH Hall)].
Qed.

Lemma lookup_without (k : string) (fields : list (string * value)) :
  k <> "type" -> lookup k (without "type" fields) = lookup k fields.
Proof.
  intros Hk. induction fields as [ | [k' x] rest IH ]; [reflexivity | ].
  cbn [without lookup]. destruct (String.eqb_spec "type" k') as [<- | Hother].
  - apply String.eqb_neq in Hk. rewrite Hk. exact IH.
  - cbn [lookup]. rewrite IH. reflexivity.
Qed.

(** X16.  A well-formed request is always answered: a POST with the key
    configured, whose body is an object of one of the seven kinds in which
    no object has an own [toString] property and whose [data] is present
    when the kind reads it, makes exactly one upstream call, sends exactly
    one response and ends normally, whatever the upstream does. *)
Theorem well_formed_request_is_answered `{Engine} (up : Upstream) (API_KEY : string)
        (req : Request) (fields : list (string * value)) (k : RequestKind) :
  req_method req = "POST" ->
  API_KEY <> EmptyString ->
  req_body req = VObj fields ->
  lookup "type" fields = VStr (kind_name k) ->
  plain (VObj fields) = true ->
  (In k needs_data -> nullish (lookup "data" fields) = false) ->
  exists (w : World) (call : UpstreamCallSpec) (r : Response),
    Superset.handler up (Some API_KEY) req init = (Normal tt, w) /\
    fetched w = [call] /\
    sent w = [r].
Proof.
  intros Hpost Hkey Hobj Htype Hplain Hdata.
  assert (Hbody : destructure (req_body req)
                  = Normal (VStr (kind_name k), VObj (without "type" fields)))
    by (rewrite Hobj; cbn [destructure]; rewrite Htype; reflexivity).
  rewrite (superset_dispatch up API_KEY req _ _ Hpost Hkey Hbody).
  destruct (superset_build_plain k API_KEY (without "type" fields) (without_plain _ Hplain))
    as (apiUrl & payload & ->).
  - intros Hin. rewrite lookup_without; [exact (Hdata Hin) | intros Habs; discriminate Habs].
  - destruct (superset_respond_once up (VStr (kind_name k)) apiUrl payload)
      as (code & b & logs & ->).
    unfold answered. do 3 eexists. split; [reflexivity | split; reflexivity].
Qed.

Lemma well_formed_request_is_answered_witness :
  exists (w : World) (call : UpstreamCallSpec) (r : Response),
    @Superset.handler sample_engine (always (Rejected (TypeError "fetch failed")))
                      (Some "secret") itinerary_request init = (Normal tt, w) /\
    fetched w = [call] /\
    sent w = [r].
Proof.
  apply (@well_formed_request_is_answered sample_engine
           (always (Rejected (TypeError "fetch failed"))) "secret" itinerary_request
           [("type", VStr "itinerary"); ("data", sample_trip)] itinerary
           eq_refl (fun Hempty => ltac:(discriminate Hempty)) eq_refl eq_refl eq_refl).
  intros _. reflexivity.
Defined.

(** * The offline cache *)

Import ServiceWorker.

Lemma prefix_split (a b : string) :
  String.prefix a b = true -> exists post : string, b = a ++ post.
Proof.
  revert b. induction a as [ | x a IH ]; intros b Hp.
  - exists b. reflexivity.
  - destruct b as [ | y b ]; [discriminate Hp | ].
    cbn [String.prefix] in Hp.
    destruct (Ascii.ascii_dec x y) as [<- | ]; [ | discriminate Hp].
    destruct (IH b Hp) as [post ->]. exists post. reflexivity.
Qed.

Lemma prefix_append (a post : string) : String.prefix a (a ++ post) = true.
Proof.
  induction a as [ | x a IH ]; cbn [append String.prefix].
  - destruct post; reflexivity.
  - destruct (Ascii.ascii_dec x x); [exact IH | contradiction].
Qed.

(** [includes] is the substring test. *)
Lemma includes_contains (needle hay : string) :
  includes needle hay = true <-> contains needle hay.
Proof.
  split.
  - induction hay as [ | y hay IH ]; cbn [includes].
    + destruct (String.prefix needle EmptyString) eqn:Hp; [ | discriminate].
      intros _. destruct (prefix_split _ _ Hp) as [post Hpost].
      exists EmptyString, post. exact Hpost.
    + destruct (String.prefix needle (String y hay)) eqn:Hp.
      * intros _. destruct (prefix_split _ _ Hp) as [post Hpost].
        exists EmptyString, post. exact Hpost.
      * intros Hin. destruct (IH Hin) as (pre & post & ->).
        exists (String y pre), post. reflexivity.
  - intros (pre & post & ->). induction pre as [ | x pre IH ].
    + cbn [append]. destruct (needle ++ post) eqn:Hw; cbn [includes];
        rewrite <- Hw, prefix_append; reflexivity.
    + cbn [append includes]. rewrite IH.
      destruct (String.prefix needle (String x (pre ++ needle ++ post))); reflexivity.
Qed.

(** X20.  Calls to the dispatcher never touch the cache.  For a request
    whose URL contains [/api/proxy] (and not [fonts.gstatic.com]), whatever
    the caches hold: a request that is not a GET, as every call to the
    dispatcher is, is left to the browser; a GET is answered by the network
    alone, the promise settling as [fetch] does; and the only effect is
    that one [fetch]. *)
Theorem api_requests_bypass_the_cache (request : FetchRequest)
        (hit : option NetworkResponse) (network : Completion NetworkResponse) :
  includes "/api/proxy" (request_url request) = true ->
  includes "fonts.gstatic.com" (request_url request) = false ->
  fst (onfetch request hit network)
  = (if String.eqb (request_method request) "GET" then Some (settle network) else None) /\
  Forall (is_network_fetch request) (snd (onfetch request hit network)) /\
  onfetch request hit network = onfetch request None network.
Proof.
  intros Hapi Hfont. unfold onfetch. rewrite Hapi, Hfont.
  destruct (String.eqb (request_method request) "GET"); cbn [negb fst snd].
  - split; [reflexivity | split; [ | reflexivity]].
    constructor; [reflexivity | constructor].
  - split; [reflexivity | split; [constructor | reflexivity]].
Qed.

Lemma api_requests_bypass_the_cache_witness :
  onfetch {| request_method := "POST"; request_url := "https://app.example/api/proxy" |}
          (Some {| response_status := 200; response_type := "basic";
                   response_url := "https://app.example/api/proxy"; content := "stale" |})
          (Throw (TypeError "Failed to fetch"))
  = onfetch {| request_method := "POST"; request_url := "https://app.example/api/proxy" |}
            None (Throw (TypeError "Failed to fetch")).
Proof.
  apply (api_requests_bypass_the_cache
           {| request_method := "POST"; request_url := "https://app.example/api/proxy" |});
    reflexivity.
Defined.

Section CacheFirst.
Variables (request : FetchRequest) (network : Completion NetworkResponse).
Hypothesis Hget : request_method request = "GET".
Hypothesis Hfont : includes "fonts.gstatic.com" (request_url request) = false.
Hypothesis Hapi : includes "/api/proxy" (request_url request) = false.

Lemma cache_first_route (hit : option NetworkResponse) :
  onfetch request hit network =
  match hit with
  | Some response => (Some (Fulfilled (Some response)), [CachesMatch request])
  | None =>
      match network with
      | Normal networkResponse =>
          if (negb (Nat.eqb (response_status networkResponse) 200)
              || negb (String.eqb (response_type networkResponse) "basic"))
             && negb (startsWith "chrome-extension://" (response_url networkResponse))
          then (Some (Fulfilled (Some networkResponse)),
                [CachesMatch request; NetFetch request])
          else (Some (Fulfilled (Some networkResponse)),
                [CachesMatch request; NetFetch request;
                 CachesOpen CACHE_NAME; CachePut CACHE_NAME request networkResponse])
      | Throw error =>
          (Some (Fulfilled None),
           [CachesMatch request; NetFetch request;
            ConsoleError "Service Worker: Fetch failed" error])
      end
  end.
Proof. unfold onfetch. rewrite Hget, Hfont, Hapi. reflexivity. Qed.

(** X21.  Every other GET is served cache-first: a cached response is
    returned without a [fetch]; on a miss the page receives the network
    response as it is, cached or not; and when the network fails on a miss
    the promise is fulfilled with [undefined] (it does not reject) after
    the failure is logged, and nothing is cached. *)
Theorem cache_first_serves_cache_then_network :
  (forall response : NetworkResponse,
      onfetch request (Some response) network
      = (Some (Fulfilled (Some response)), [CachesMatch request])) /\
  (forall networkResponse : NetworkResponse,
      network = Normal networkResponse ->
      fst (onfetch request None network) = Some (Fulfilled (Some networkResponse))) /\
  (forall error : JsError,
      network = Throw error ->
      onfetch request None network
      = (Some (Fulfilled None),
         [CachesMatch request; NetFetch request;
          ConsoleError "Service Worker: Fetch failed" error])).
Proof.
  split; [ | split].
  - intros response. apply cache_first_route.
  - intros networkResponse Hnet. rewrite cache_first_route, Hnet.
    destruct ((negb (Nat.eqb (response_status networkResponse) 200)
               || negb (String.eqb (response_type networkResponse) "basic"))
              && negb (startsWith "chrome-extension://" (response_url networkResponse)));
      reflexivity.
  - intros error Hnet. rewrite cache_first_route, Hnet. reflexivity.
Qed.

(** X22.  What a cache-first miss stores: the network response is put in
    the cache exactly when it has status 200 and type [basic], or when its
    URL starts with [chrome-extension://] (whatever its status and
    type). *)
Theorem cache_first_caching_rule (networkResponse : NetworkResponse) :
  network = Normal networkResponse ->
  In (CachePut CACHE_NAME request networkResponse) (snd (onfetch request None network))
  <->
  (response_status networkResponse = 200%nat /\ response_type networkResponse = "basic") \/
  startsWith "chrome-extension://" (response_url networkResponse) = true.
Proof.
  intros Hnet. rewrite cache_first_route, Hnet.
  destruct (Nat.eqb_spec (response_status networkResponse) 200) as [Hs | Hs];
    destruct (String.eqb_spec (response_type networkResponse) "basic") as [Ht | Ht];
    destruct (startsWith "chrome-extension://" (response_url networkResponse)) eqn:Hx;
    cbn [negb orb andb snd In]; split; intros Hin;
    try (right; right; right; left; reflexivity);
    try (left; split; assumption);
    try (right; reflexivity).
  all: try (destruct Hin as [Habs | [Habs | []]]; discriminate Habs).
  all: destruct Hin as [[Hs' Ht'] | Habs];
    [first [contradiction | exfalso; auto] | discriminate Habs].
Qed.

End CacheFirst.

Lemma cache_first_serves_cache_then_network_witness :
  onfetch page_request (Some page_response) (Throw (TypeError "Failed to fetch"))
  = (Some (Fulfilled (Some page_response)), [CachesMatch page_request]).
Proof.
  apply (proj1 (cache_first_serves_cache_then_network page_request
                  (Throw (TypeError "Failed to fetch")) eq_refl eq_refl eq_refl)).
Defined.

Lemma cache_first_caching_rule_witness :
  ~ In (CachePut CACHE_NAME page_request missing_page)
       (snd (onfetch page_request None (Normal missing_page))).
Proof.
  intros Hin.
  apply (cache_first_caching_rule page_request (Normal missing_page)
           eq_refl eq_refl eq_refl missing_page eq_refl) in Hin.
  destruct Hin as [[Hstatus _] | Hext]; [discriminate Hstatus | discriminate Hext].
Defined.

(** X23.  Font files are served stale-while-revalidate: a GET whose URL
    contains [fonts.gstatic.com] always goes to the network, even on a
    cache hit; the page gets the cached response when there is one and the
    network's outcome otherwise; and every response the network gives is
    put in the cache, whatever its status and type. *)
Theorem fonts_are_revalidated (request : FetchRequest) (hit : option NetworkResponse)
        (network : Completion NetworkResponse) :
  request_method request = "GET" ->
  includes "fonts.gstatic.com" (request_url request) = true ->
  In (NetFetch request) (snd (onfetch request hit network)) /\
  fst (onfetch request hit network)
  = Some (match hit with
          | Some response => Fulfilled (Some response)
          | None => settle network
          end) /\
  (forall networkResponse : NetworkResponse,
      network = Normal networkResponse ->
      In (CachePut CACHE_NAME request networkResponse) (snd (onfetch request hit network))).
Proof.
  intros Hget Hfont. unfold onfetch. rewrite Hget, Hfont. cbn [String.eqb Ascii.eqb Bool.eqb negb fst snd].
  split; [ | split].
  - cbn. auto.
  - reflexivity.
  - intros networkResponse ->. cbn. auto.
Qed.

Lemma fonts_are_revalidated_witness :
  In (NetFetch font_request)
     (snd (onfetch font_request (Some page_response) (Normal missing_page))) /\
  In (CachePut CACHE_NAME font_request missing_page)
     (snd (onfetch font_request (Some page_response) (Normal missing_page))).
Proof.
  destruct (fonts_are_revalidated font_request (Some page_response) (Normal missing_page)
              eq_refl eq_refl) as (Hfetch & _ & Hput).
  split; [exact Hfetch | exact (Hput missing_page eq_refl)].
Defined.

(** X24.  The worker writes to one cache only, and only what the network
    just gave for the request at hand: every [cache.put] of the listener
    goes to [CACHE_NAME], is keyed by the event's own request, stores the
    response [fetch] resolved with, and happens only for a GET. *)
Theorem only_network_responses_are_cached (request : FetchRequest)
        (hit : option NetworkResponse) (network : Completion NetworkResponse)
        (name : string) (key : FetchRequest) (stored : NetworkResponse) :
  In (CachePut name key stored) (snd (onfetch request hit network)) ->
  name = CACHE_NAME /\ key = request /\ network = Normal stored /\
  request_method request = "GET".
Proof.
  unfold onfetch.
  destruct (String.eqb_spec (request_method request) "GET") as [Hget | Hother];
    cbn [negb]; [ | intros []].
  destruct (includes "fonts.gstatic.com" (request_url request));
    [ | destruct (includes "/api/proxy" (request_url request));
        [ | destruct hit as [response | ] ] ];
    try destruct network as [n | e];
    try destruct ((negb (Nat.eqb (response_status n) 200)
                   || negb (String.eqb (response_type n) "basic"))
                  && negb (startsWith "chrome-extension://" (response_url n)));
    cbn [snd app In]; intros Hin;
    repeat (destruct Hin as [Hin | Hin];
            [first [discriminate Hin | injection Hin as <- <- <-; auto] | ]);
    destruct Hin.
Qed.

Lemma only_network_responses_are_cached_witness :
  In (CachePut CACHE_NAME page_request page_response)
     (snd (onfetch page_request None (Normal page_response))) /\
  request_method page_request = "GET".
Proof.
  assert (Hin : In (CachePut CACHE_NAME page_request page_response)
                   (snd (onfetch page_request None (Normal page_response))))
    by (cbn; auto).
  split; [exact Hin | ].
  exact (proj2 (proj2 (proj2 (only_network_responses_are_cached page_request None
                                (Normal page_response) CACHE_NAME page_request
                                page_response Hin)))).
Defined.

(** ** Activation *)

Lemma filter_twice {A} (p q : A -> bool) (l : list A) :
  filter p (filter q l) = filter (fun x => q x && p x) l.
Proof.
  induction l as [ | x l IH ]; [reflexivity | ].
  cbn [filter]. destruct (q x); cbn [filter andb]; [destruct (p x) | ]; now rewrite IH.
Qed.

Lemma deletions_filter (names : list string) (caches : CacheStorage) :
  fold_left (fun remaining cacheName =>
               if negb (String.eqb cacheName CACHE_NAME)
               then caches_delete cacheName remaining
               else remaining) names caches
  = filter (survives names) caches.
Proof.
  revert caches. induction names as [ | n names IH ]; intros caches.
  - cbn [fold_left]. unfold survives. cbn [forallb].
    induction caches as [ | c caches IHc ]; [reflexivity | ].
    cbn [filter]. now rewrite <- IHc.
  - cbn [fold_left]. rewrite IH. unfold survives at 2. cbn [forallb].
    destruct (String.eqb n CACHE_NAME) eqn:Hn; cbn [negb orb].
    + reflexivity.
    + unfold caches_delete. rewrite filter_twice. reflexivity.
Qed.

Lemma survives_own_name (caches : CacheStorage)
      (cache : string * list (FetchRequest * NetworkResponse)) :
  In cache caches ->
  survives (map fst caches) cache = true <-> fst cache = CACHE_NAME.
Proof.
  intros Hin. unfold survives. rewrite forallb_forall. split.
  - intros Hall.
    specialize (Hall (fst cache) (in_map fst caches cache Hin)).
    rewrite String.eqb_refl in Hall. cbn [negb] in Hall. rewrite orb_false_r in Hall.
    now apply String.eqb_eq.
  - intros Hname n _. rewrite Hname.
    destruct (String.eqb_spec n CACHE_NAME) as [-> | Hother]; [reflexivity | ].
    cbn [orb]. apply negb_true_iff. apply String.eqb_neq. congruence.
Qed.

Lemma current_survives (names : list string)
      (cache : string * list (FetchRequest * NetworkResponse)) :
  fst cache = CACHE_NAME -> survives names cache = true.
Proof.
  intros Hname. unfold survives. apply forallb_forall. intros n _. rewrite Hname.
  destruct (String.eqb_spec n CACHE_NAME) as [-> | Hother]; [reflexivity | ].
  cbn [orb]. apply negb_true_iff. apply String.eqb_neq. congruence.
Qed.

Lemma activation_filter (caches : CacheStorage) :
  fst (onactivate caches) = filter (fun cache => String.eqb (fst cache) CACHE_NAME) caches.
Proof.
  unfold onactivate. cbn [fst]. rewrite deletions_filter.
  apply filter_ext_in. intros cache Hin.
  destruct (String.eqb_spec (fst cache) CACHE_NAME) as [Hname | Hother].
  - now apply survives_own_name.
  - destruct (survives (map fst caches) cache) eqn:Hs; [ | reflexivity].
    apply (survives_own_name caches cache Hin) in Hs. contradiction.
Qed.

(** X25.  After activation only the current cache is left: a cache is in
    the storage afterwards exactly when it was there before and its name
    is [CACHE_NAME], entries untouched; and [caches.delete] is called for
    exactly the names of [caches.keys()] that differ from [CACHE_NAME]. *)
Theorem activation_keeps_only_the_current_cache (caches : CacheStorage) :
  (forall cache : string * list (FetchRequest * NetworkResponse),
      In cache (fst (onactivate caches)) <-> In cache caches /\ fst cache = CACHE_NAME) /\
  (forall cacheName : string,
      In (CachesDelete cacheName) (snd (onactivate caches))
      <-> In cacheName (map fst caches) /\ cacheName <> CACHE_NAME).
Proof.
  split.
  - intros cache. rewrite activation_filter, filter_In, String.eqb_eq. reflexivity.
  - intros cacheName. unfold onactivate. cbn [snd].
    rewrite in_app_iff, in_flat_map. split.
    + intros [(n & Hn & Hin) | [Habs | []]]; [ | discriminate Habs].
      destruct (String.eqb_spec n CACHE_NAME) as [-> | Hother]; cbn [negb In] in Hin.
      * destruct Hin.
      * destruct Hin as [Habs | [Heq | []]]; [discriminate Habs | ].
        injection Heq as <-. auto.
    + intros [Hin Hother]. left. exists cacheName. split; [exact Hin | ].
      apply String.eqb_neq in Hother. rewrite Hother. cbn. auto.
Qed.

(** X26.  Activating again changes nothing: on the storage a first
    activation leaves, a second one deletes no cache, logs nothing and only
    claims the clients. *)
Theorem activation_is_idempotent (caches : CacheStorage) :
  onactivate (fst (onactivate caches)) = (fst (onactivate caches), [ClientsClaim]).
Proof.
  rewrite activation_filter.
  set (kept := filter (fun cache => String.eqb (fst cache) CACHE_NAME) caches).
  assert (Hkept : forall cache, In cache kept -> String.eqb (fst cache) CACHE_NAME = true).
  { intros cache Hin. unfold kept in Hin. apply filter_In in Hin. tauto. }
  clearbody kept. unfold onactivate. f_equal.
  - rewrite deletions_filter.
    generalize (map fst kept). intros names.
    induction kept as [ | c kept IH ]; [reflexivity | ].
    cbn [filter].
    rewrite (current_survives names c)
      by (apply String.eqb_eq, Hkept; left; reflexivity).
    f_equal. apply IH. intros x Hx. apply Hkept. right. exact Hx.
  - induction kept as [ | c kept IH ]; [reflexivity | ].
    cbn [map flat_map]. rewrite (Hkept c (or_introl eq_refl)). cbn [negb app].
    apply IH. intros x Hx. apply Hkept. right. exact Hx.
Qed.

(** * What payload construction reads of its surroundings *)

Lemma ToString_engines (E1 E2 : Engine) (v : value) :
  (forall q : Q, @Number_toString E1 q = @Number_toString E2 q) ->
  @ToString E1 v = @ToString E2 v.
Proof.
  intros Hnum.
  induction v as [ | | b | q | s | items IH | fields IH ] using value_nested_ind;
    try reflexivity.
  - cbn [ToString]. now rewrite Hnum.
  - induction IH as [ | x rest Hx Hrest IHrest ]; [reflexivity | ].
    rewrite (@ToString_cons E1), (@ToString_cons E2), IHrest.
    destruct x; try reflexivity; rewrite Hx; reflexivity.
Qed.

Lemma template_engines (E1 E2 : Engine) (ps : list piece) :
  (forall q : Q, @Number_toString E1 q = @Number_toString E2 q) ->
  @template E1 ps = @template E2 ps.
Proof.
  intros Hnum. induction ps as [ | [s | e] ps IH ]; [reflexivity | | ];
    cbn [template]; rewrite IH; [reflexivity | ].
  destruct e as [v | err]; cbn [cbind]; [ | reflexivity].
  now rewrite (ToString_engines E1 E2 v Hnum).
Qed.

(** Expose the templates of a case and move them from one engine to the
    other. *)
Ltac same_templates E1 E2 Hnum :=
  repeat match goal with
         | |- context [cbind (GetV ?v ?k) _] => destruct (GetV v k); cbn [cbind]
         end;
  rewrite ?(fun ps => template_engines E1 E2 ps Hnum);
  try reflexivity.

(** X28.  Payload construction reads nothing of its surroundings but the
    printing of numbers: on two engines that print numbers alike, whatever
    else they do ([JSON.parse], the reading of numbers), the switch of
    either version resolves the same endpoint and builds the same payload,
    or throws the same exception, for every key, [type] and [body]. *)
Theorem payload_needs_only_number_printing (E1 E2 : Engine) (API_KEY : string)
        (type body : value) :
  (forall q : Q, @Number_toString E1 q = @Number_toString E2 q) ->
  @Superset.build E1 API_KEY type body = @Superset.build E2 API_KEY type body /\
  @Superseded.build E1 type body = @Superseded.build E2 type body.
Proof.
  intros Hnum. unfold Superset.build, Superseded.build,
    Superset.itinerary_prompt, Superseded.itinerary_prompt.
  split.
  - destruct (strict_eq type "itinerary"); [same_templates E1 E2 Hnum | ].
    destruct (strict_eq type "groundedSearch"); [reflexivity | ].
    destruct (strict_eq type "contextualQa"); [same_templates E1 E2 Hnum | ].
    destruct (strict_eq type "flights"); [same_templates E1 E2 Hnum | ].
    destruct (strict_eq type "packingList"); [same_templates E1 E2 Hnum | ].
    destruct (strict_eq type "currency"); [same_templates E1 E2 Hnum | ].
    destruct (strict_eq type "generateImage"); [same_templates E1 E2 Hnum | ].
    reflexivity.
  - destruct (strict_eq type "itinerary"); [same_templates E1 E2 Hnum | ].
    destruct (strict_eq type "groundedSearch"); [reflexivity | ].
    destruct (strict_eq type "contextualQa"); [same_templates E1 E2 Hnum | ].
    destruct (strict_eq type "flights"); [same_templates E1 E2 Hnum | ].
    destruct (strict_eq type "packingList"); [same_templates E1 E2 Hnum | ].
    destruct (strict_eq type "currency"); [same_templates E1 E2 Hnum | ].
    reflexivity.
Qed.

Lemma payload_needs_only_number_printing_witness :
  @Superset.build sample_engine "secret" (VStr "currency") (sample_body currency)
  = @Superset.build
      {| Number_toString := sample_Number_toString;
         String_toNumber := fun _ => None;
         JSON_parse := fun _ => Normal VNull |}
      "secret" (VStr "currency") (sample_body currency).
Proof.
  apply (payload_needs_only_number_printing sample_engine
           {| Number_toString := sample_Number_toString;
              String_toNumber := fun _ => None;
              JSON_parse := fun _ => Normal VNull |}
           "secret" (VStr "currency") (sample_body currency)).
  intros q. reflexivity.
Defined.
